(** * GRU unit operator: forward and backward kernels

    A shallow embedding of [paddle/operators/gru_unit_op.h]
    ([GRUUnitKernel] and [GRUUnitGradKernel]) and the properties of the
    operator's specification, stated over it.

    Tensors are flat row-major buffers (lists) with their dimensions, Eigen
    expressions are coefficient functions, an assignment to a tensor or to a
    slice of it is the loop that writes every coefficient of the destination,
    and [math::gemm] works on raw buffers with offsets and leading
    dimensions, as the kernels call it. The element type [T] is the kernels'
    template parameter. *)

From Stdlib Require Import ZArith Lia.
From stdpp Require Import base list strings.

Local Open Scope nat_scope.

(** ** The element type

    The kernels are templates over the element type [T]; they use its
    constant one, its sum, difference and product. [Tis_zero x] is the
    comparison [x == 0] of the element type, which the matrix product makes
    on its factor [beta]; it tells zero from one. *)

Class Scalar (T : Type) := {
  Tzero : T;
  Tone : T;
  Tadd : T -> T -> T;
  Tsub : T -> T -> T;
  Tmul : T -> T -> T;
  Tis_zero : T -> bool;
  Tis_zero_zero : Tis_zero Tzero = true;
  Tis_zero_one : Tis_zero Tone = false
}.

(** Modelled from the spec: the functors of
    [paddle/operators/activation_op.h], which the kernels dispatch to, are
    not part of the sources at hand. By the contract of the activation
    dispatch they are elementwise: a forward functor maps a coefficient [x]
    to [y], a gradient functor maps the coefficients [x], [y] and [dy] to
    [dx]. The scalar functions are left open; every theorem below holds for
    any choice of them. *)

Class Activations (T : Type) := {
  sigmoid_f : T -> T;
  tanh_f : T -> T;
  relu_f : T -> T;
  sigmoid_grad_f : T -> T -> T -> T;
  tanh_grad_f : T -> T -> T -> T;
  relu_grad_f : T -> T -> T -> T
}.

(** The integers as an element type, to run the kernels on concrete inputs. *)

#[export] Instance Z_Scalar : Scalar Z := {|
  Tzero := 0%Z; Tone := 1%Z; Tadd := Z.add; Tsub := Z.sub; Tmul := Z.mul;
  Tis_zero := fun x => (x =? 0)%Z;
  Tis_zero_zero := eq_refl;
  Tis_zero_one := eq_refl
|}.

(** Over [Z] the logistic function and the hyperbolic tangent have no exact
    form; the instance takes integer stand-ins for them, and the concrete
    calls below use [identity] and [relu] only, which are exact. *)

#[export] Instance Z_Activations : Activations Z := {|
  sigmoid_f := fun x => (x / 2)%Z;
  tanh_f := fun x => Z.sgn x;
  relu_f := fun x => Z.max 0 x;
  sigmoid_grad_f := fun _ y dy => (dy * y * (1 - y))%Z;
  tanh_grad_f := fun _ y dy => (dy * (1 - y * y))%Z;
  relu_grad_f := fun x _ dy => if (0 <? x)%Z then dy else 0%Z
|}.

(** ** Failure

    [PADDLE_THROW] raises an exception that carries a message; a kernel
    either returns or throws. *)

Inductive Result (A : Type) : Type :=
| Ok (a : A)
| Throw (msg : string).

Arguments Ok {A} a.
Arguments Throw {A} msg.

#[export] Instance Result_bind : MBind Result := fun A B k m =>
  match m with
  | Ok a => k a
  | Throw msg => Throw msg
  end.

(** ** Tensors and Eigen expressions *)

Section Kernels.

Context {T : Type} {ST : Scalar T} {AT : Activations T}.

(** [framework::Tensor]: the dimensions and the row-major buffer. *)

Record Tensor : Type := mkTensor {
  dims : list nat;
  data : list T
}.

(** [t->dims()[k]]. Dimensions, sizes and offsets are natural numbers: the
    kernels hold them in [int], and a tensor whose sizes and offsets
    ([frame_size * frame_size * 2] at most) fit in [int] is assumed. *)
Definition dim (t : Tensor) (k : nat) : nat := nth k (dims t) 0.

(** An Eigen expression of rank two, by its coefficients. *)
Definition Expr : Type := nat -> nat -> T.

(** Coefficient [(i, j)] of a row-major buffer whose rows are [ld] long.
    A read past the buffer gives [Tzero]; no valid call makes one. *)
Definition coeff (buf : list T) (ld : nat) : Expr :=
  fun i j => nth (i * ld + j) buf Tzero.

(** [EigenMatrix<T>::From(t)] and the other matrix views: a buffer read with
    a number of rows and columns. *)
Record TensorMap : Type := mkMap {
  tm_data : list T;
  tm_rows : nat;
  tm_cols : nat
}.

(** The matrix view with the dimensions of [t] over the buffer [buf], which
    is the buffer of [t] in its current state. *)
Definition view (t : Tensor) (buf : list T) : TensorMap :=
  {| tm_data := buf; tm_rows := dim t 0; tm_cols := dim t 1 |}.

Definition EigenMatrix_From (t : Tensor) : TensorMap := view t (data t).

(** The coefficients of a view. *)
Definition read (m : TensorMap) : Expr := coeff (tm_data m) (tm_cols m).

(** [m.reshape({r, c})] *)
Definition reshape (m : TensorMap) (r c : nat) : TensorMap :=
  {| tm_data := tm_data m; tm_rows := r; tm_cols := c |}.

(** [m.broadcast({br, bc})]: the coefficients of [m] repeat with periods
    [tm_rows m] and [tm_cols m]. *)
Definition broadcast (m : TensorMap) : Expr :=
  fun i j => read m (i mod tm_rows m) (j mod tm_cols m).

(** [e.slice(offsets, extents)], read. *)
Definition slice (e : Expr) (offsets : nat * nat) : Expr :=
  fun i j => e (i + fst offsets) (j + snd offsets).

Definition cwiseAdd (a b : Expr) : Expr := fun i j => Tadd (a i j) (b i j).
Definition cwiseSub (a b : Expr) : Expr := fun i j => Tsub (a i j) (b i j).
Definition cwiseMul (a b : Expr) : Expr := fun i j => Tmul (a i j) (b i j).

(** [e.constant(v)] *)
Definition constant (v : T) : Expr := fun _ _ => v.

(** Sum of [f 0 .. f (n-1)], in index order. *)
Fixpoint Tsum (n : nat) (f : nat -> T) : T :=
  match n with
  | 0 => Tzero
  | S n' => Tadd (Tsum n' f) (f n')
  end.

(** [e.sum({0})] of an expression with [rows] rows: the column sums. *)
Definition sum_dim0 (e : Expr) (rows : nat) : nat -> T :=
  fun j => Tsum rows (fun i => e i j).

(** *** Writing a buffer *)

(** [for j < n: buf[base + j] = e j] *)
Fixpoint write_row (buf : list T) (base : nat) (e : nat -> T) (n : nat)
  : list T :=
  match n with
  | 0 => buf
  | S n' => <[base + n' := e n']> (write_row buf base e n')
  end.

(** [for i < m, j < n: buf[base + i * ld + j] = e i j] *)
Fixpoint write_rows (buf : list T) (base ld : nat) (e : Expr) (n m : nat)
  : list T :=
  match m with
  | 0 => buf
  | S m' => write_row (write_rows buf base ld e n m') (base + m' * ld) (e m') n
  end.

(** The destination of an assignment: a view, or the slice of one. *)
Record LValue : Type := mkLValue {
  lv_map : TensorMap;
  lv_offsets : nat * nat;
  lv_extents : nat * nat
}.

(** [m] as a destination. *)
Definition whole (m : TensorMap) : LValue :=
  {| lv_map := m; lv_offsets := (0, 0); lv_extents := (tm_rows m, tm_cols m) |}.

(** [m.slice(offsets, extents)] as a destination. *)
Definition slice_of (m : TensorMap) (offsets extents : nat * nat) : LValue :=
  {| lv_map := m; lv_offsets := offsets; lv_extents := extents |}.

(** [y.device(place) = e]: every coefficient of the destination is written,
    and the buffer under the destination is returned. The expression is
    evaluated against the buffers as they are before the assignment; an
    in-place assignment of the kernels reads, for a coefficient, only the
    very coefficient it writes. *)
Definition device_assign (y : LValue) (e : Expr) : list T :=
  let ld := tm_cols (lv_map y) in
  write_rows (tm_data (lv_map y))
    (fst (lv_offsets y) * ld + snd (lv_offsets y)) ld e
    (snd (lv_extents y)) (fst (lv_extents y)).

(** Assignment of a rank-one expression to the buffer of a view, in
    row-major order of the view. *)
Definition device_assign_vec (m : TensorMap) (e : nat -> T) : list T :=
  write_row (tm_data m) 0 e (tm_rows m * tm_cols m).

(** *** Raw pointers *)

(** A pointer into a buffer: the buffer and the offset. *)
Definition Ptr : Type := (list T * nat)%type.

(** [t->data<T>()] *)
Definition data_ptr (buf : list T) : Ptr := (buf, 0).

(** [p + n] *)
Definition ptr_add (p : Ptr) (n : nat) : Ptr := (fst p, snd p + n).

(** [p[k]] *)
Definition deref (p : Ptr) (k : nat) : T := nth (snd p + k) (fst p) Tzero.

(** Modelled from the spec: [math::gemm] of
    [paddle/operators/math/math_function.h] is not part of the sources at
    hand. By its contract, [gemm(transA, transB, M, N, K, alpha, A, lda, B,
    ldb, beta, C, ldc)] computes [C := alpha * op(A) * op(B) + beta * C]
    for row-major matrices with row strides [lda], [ldb] and [ldc], where
    [op] transposes when asked to. With [beta = 0] it overwrites: the
    destination is not read, so whatever it held (a not-a-number of
    uninitialised memory, say) has no part in the result. The buffer under
    [C] is returned. *)
Definition gemm (transA transB : bool) (M N K : nat) (alpha : T)
    (A : Ptr) (lda : nat) (B : Ptr) (ldb : nat) (beta : T)
    (C : Ptr) (ldc : nat) : list T :=
  let opA i k := if transA then deref A (k * lda + i) else deref A (i * lda + k) in
  let opB k j := if transB then deref B (j * ldb + k) else deref B (k * ldb + j) in
  write_rows (fst C) (snd C) ldc
    (fun i j =>
       let ab := Tmul alpha (Tsum K (fun k => Tmul (opA i k) (opB k j))) in
       if Tis_zero beta then ab
       else Tadd ab (Tmul beta (deref C (i * ldc + j))))
    N M.

(** [enum GRUActivationType] *)
Definition identity : Z := 0.
Definition sigmoid : Z := 1.
Definition tanh : Z := 2.
Definition relu : Z := 3.

(** Modelled from the spec: the functors of [activation_op.h], each called
    as [Functor()(d, x, y)] or [GradFunctor()(d, x, y, dy, dx)], assign the
    elementwise image to their last argument. *)
Definition SigmoidFunctor (x : Expr) (y : LValue) : list T :=
  device_assign y (fun i j => sigmoid_f (x i j)).
Definition TanhFunctor (x : Expr) (y : LValue) : list T :=
  device_assign y (fun i j => tanh_f (x i j)).
Definition ReluFunctor (x : Expr) (y : LValue) : list T :=
  device_assign y (fun i j => relu_f (x i j)).

Definition SigmoidGradFunctor (x y dy : Expr) (dx : LValue) : list T :=
  device_assign dx (fun i j => sigmoid_grad_f (x i j) (y i j) (dy i j)).
Definition TanhGradFunctor (x y dy : Expr) (dx : LValue) : list T :=
  device_assign dx (fun i j => tanh_grad_f (x i j) (y i j) (dy i j)).
Definition ReluGradFunctor (x y dy : Expr) (dx : LValue) : list T :=
  device_assign dx (fun i j => relu_grad_f (x i j) (y i j) (dy i j)).

End Kernels.

Arguments Tensor T : clear implicits.
Arguments TensorMap T : clear implicits.
Arguments LValue T : clear implicits.
Arguments Expr T : clear implicits.
Arguments Ptr T : clear implicits.

(** ** The forward kernel *)

Module GRUUnitKernel.
Section Forward.

Context {T : Type} {ST : Scalar T} {AT : Activations T}.

(** What the kernel sees of [framework::ExecutionContext]: the inputs, the
    attributes, and the output tensors, whose dimensions the operator's
    shape inference has set and whose buffers hold no defined values yet. *)
Record ExecutionContext : Type := {
  Input : Tensor T;
  HiddenPrev : Tensor T;
  Weight : Tensor T;
  Bias : Tensor T;
  gate_activation : Z;
  activation : Z;
  Gate : Tensor T;
  ResetHiddenPrev : Tensor T;
  Hidden : Tensor T
}.

(** The buffers of the three outputs when the kernel returns. *)
Record Outputs : Type := {
  gate_out : list T;
  reset_hidden_prev_out : list T;
  hidden_out : list T
}.

Definition ActCompute (act_type : Z) (x : Expr T) (y : LValue T)
  : Result (list T) :=
  if (act_type =? identity)%Z then Ok (device_assign y x)
  else if (act_type =? sigmoid)%Z then Ok (SigmoidFunctor x y)
  else if (act_type =? tanh)%Z then Ok (TanhFunctor x y)
  else if (act_type =? relu)%Z then Ok (ReluFunctor x y)
  else Throw "unsupported activation type".

(** Lines 73-84, "calculate unactivated gate outputs": the gate buffer after
    the bias is added and the update and reset recurrent terms are
    accumulated. *)
Definition unactivated_gate (context : ExecutionContext) : list T :=
  let input := Input context in
  let hidden_prev := HiddenPrev context in
  let weight := Weight context in
  let bias := Bias context in
  let gate := Gate context in
  let batch_size := dim input 0 in
  let frame_size := dim hidden_prev 1 in
  let x := EigenMatrix_From input in
  let b := EigenMatrix_From bias in
  let g := EigenMatrix_From gate in
  let gate_data :=
    device_assign (whole g)
      (cwiseAdd (read x) (broadcast (reshape b 1 (frame_size * 3)))) in
  let hidden_prev_data := data_ptr (data hidden_prev) in
  let weight_data := data_ptr (data weight) in
  gemm false false batch_size (2 * frame_size) frame_size Tone
    hidden_prev_data frame_size weight_data (frame_size * 2) Tone
    (data_ptr gate_data) (frame_size * 3).

Definition Compute (context : ExecutionContext) : Result Outputs :=
  let input := Input context in
  let hidden_prev := HiddenPrev context in
  let weight := Weight context in
  let gate := Gate context in
  let reset_hidden_prev := ResetHiddenPrev context in
  let hidden := Hidden context in
  let batch_size := dim input 0 in
  let frame_size := dim hidden_prev 1 in
  let h_p := EigenMatrix_From hidden_prev in
  let g := view gate in
  let r_h_p := EigenMatrix_From reset_hidden_prev in
  let h := EigenMatrix_From hidden in
  let weight_data := data_ptr (data weight) in
  let gate_data := unactivated_gate context in
  (* calculate activated gate *)
  let extents := (batch_size, frame_size) in
  let u_offsets := (0, 0) in
  gate_data ← ActCompute (gate_activation context)
                 (slice (read (g gate_data)) u_offsets)
                 (slice_of (g gate_data) u_offsets extents);
  let r_offsets := (0, frame_size) in
  gate_data ← ActCompute (gate_activation context)
                 (slice (read (g gate_data)) r_offsets)
                 (slice_of (g gate_data) r_offsets extents);
  let r := slice (read (g gate_data)) r_offsets in
  let reset_hidden_prev_data :=
    device_assign (whole r_h_p) (cwiseMul r (read h_p)) in
  let gate_data :=
    gemm false false batch_size frame_size frame_size Tone
      (data_ptr reset_hidden_prev_data) frame_size
      (ptr_add weight_data (frame_size * frame_size * 2)) frame_size Tone
      (ptr_add (data_ptr gate_data) (frame_size * 2)) (frame_size * 3) in
  let c_offsets := (0, frame_size * 2) in
  gate_data ← ActCompute (activation context)
                 (slice (read (g gate_data)) c_offsets)
                 (slice_of (g gate_data) c_offsets extents);
  let u := slice (read (g gate_data)) u_offsets in
  let c := slice (read (g gate_data)) c_offsets in
  (* calculate final output *)
  let hidden_data :=
    device_assign (whole h)
      (cwiseAdd (cwiseMul u (cwiseSub (read h_p) c)) c) in
  Ok {| gate_out := gate_data;
        reset_hidden_prev_out := reset_hidden_prev_data;
        hidden_out := hidden_data |}.

End Forward.

Arguments ExecutionContext T : clear implicits.
Arguments Outputs T : clear implicits.

End GRUUnitKernel.

(** ** The backward kernel *)

Module GRUUnitGradKernel.
Section Backward.

Context {T : Type} {ST : Scalar T} {AT : Activations T}.

(** The inputs, the attributes and the four gradient outputs of the
    backward operator, and the memory that the allocator hands out for the
    two local tensors [gate_grad] and [reset_hidden_prev_grad] (its contents
    are not defined). *)
Record ExecutionContext : Type := {
  Input : Tensor T;
  HiddenPrev : Tensor T;
  Weight : Tensor T;
  Gate : Tensor T;
  ResetHiddenPrev : Tensor T;
  Hidden_grad : Tensor T;
  gate_activation : Z;
  activation : Z;
  Input_grad : Tensor T;
  HiddenPrev_grad : Tensor T;
  Weight_grad : Tensor T;
  Bias_grad : Tensor T;
  gate_grad_memory : list T;
  reset_hidden_prev_grad_memory : list T
}.

(** [t.mutable_data<T>(dims, place)] on a fresh tensor. *)
Definition mutable_data (dims : list nat) (memory : list T) : Tensor T :=
  {| dims := dims; data := memory |}.

(** The buffers of the four outputs when the kernel returns, and those of
    the two local tensors at that point. *)
Record Outputs : Type := {
  input_grad_out : list T;
  hidden_prev_grad_out : list T;
  weight_grad_out : list T;
  bias_grad_out : list T;
  gate_grad_local : list T;
  reset_hidden_prev_grad_local : list T
}.

Definition ActGradCompute (act_type : Z) (x y : Expr T) (dx : LValue T)
    (dy : Expr T) : Result (list T) :=
  (* x is dummy and won't be used even in Relu(use y instead) *)
  if (act_type =? identity)%Z then Ok (device_assign dx dy)
  else if (act_type =? sigmoid)%Z then Ok (SigmoidGradFunctor x y dy dx)
  else if (act_type =? tanh)%Z then Ok (TanhGradFunctor x y dy dx)
  else if (act_type =? relu)%Z then Ok (ReluGradFunctor x y dy dx)
  else Throw "unsupported activation type".

Definition Compute (context : ExecutionContext) : Result Outputs :=
  let input := Input context in
  let hidden_prev := HiddenPrev context in
  let weight := Weight context in
  let gate := Gate context in
  let reset_hidden_prev := ResetHiddenPrev context in
  let hidden_grad := Hidden_grad context in
  let input_grad := Input_grad context in
  let hidden_prev_grad := HiddenPrev_grad context in
  let weight_grad := Weight_grad context in
  let bias_grad := Bias_grad context in
  let gate_grad := mutable_data (dims input) (gate_grad_memory context) in
  let reset_hidden_prev_grad :=
    mutable_data (dims reset_hidden_prev)
      (reset_hidden_prev_grad_memory context) in
  let batch_size := dim input 0 in
  let frame_size := dim hidden_prev 1 in
  let hidden_prev_data := data_ptr (data hidden_prev) in
  let hidden_prev_grad_data := data hidden_prev_grad in
  let weight_data := data_ptr (data weight) in
  let weight_grad_data := data weight_grad in
  let gate_grad_data := data gate_grad in
  let reset_hidden_prev_data := data_ptr (data reset_hidden_prev) in
  let reset_hidden_prev_grad_data := data reset_hidden_prev_grad in
  let h_p := read (EigenMatrix_From hidden_prev) in
  let g := read (EigenMatrix_From gate) in
  let d_h := read (EigenMatrix_From hidden_grad) in
  let d_x := EigenMatrix_From input_grad in
  let d_h_p := EigenMatrix_From hidden_prev_grad in
  let d_b := EigenMatrix_From bias_grad in
  let d_g := view gate_grad in
  let d_r_h_p := view reset_hidden_prev_grad in
  let extents := (batch_size, frame_size) in
  let u_offsets := (0, 0) in
  let u := slice g u_offsets in
  let r_offsets := (0, frame_size) in
  let r := slice g r_offsets in
  let c_offsets := (0, frame_size * 2) in
  let c := slice g c_offsets in
  (* backward for unactivated update gate *)
  gate_grad_data ← ActGradCompute (gate_activation context) u u
      (slice_of (d_g gate_grad_data) u_offsets extents)
      (cwiseMul d_h (cwiseSub h_p c));
  (* backward for unactivated output candidate *)
  gate_grad_data ← ActGradCompute (activation context) c c
      (slice_of (d_g gate_grad_data) c_offsets extents)
      (cwiseMul d_h (cwiseSub (constant Tone) u));
  (* backward for reset_hidden_prev *)
  let reset_hidden_prev_grad_data :=
    gemm false true batch_size frame_size frame_size Tone
      (ptr_add (data_ptr gate_grad_data) (frame_size * 2)) (frame_size * 3)
      (ptr_add weight_data (frame_size * frame_size * 2)) frame_size
      Tzero (data_ptr reset_hidden_prev_grad_data) frame_size in
  (* backward for state_weight *)
  let weight_grad_data :=
    gemm true false frame_size frame_size batch_size Tone
      reset_hidden_prev_data frame_size
      (ptr_add (data_ptr gate_grad_data) (frame_size * 2)) (frame_size * 3)
      Tzero
      (ptr_add (data_ptr weight_grad_data) (frame_size * frame_size * 2))
      frame_size in
  (* backward for unactivated reset gate *)
  gate_grad_data ← ActGradCompute (gate_activation context) r r
      (slice_of (d_g gate_grad_data) r_offsets extents)
      (cwiseMul (read (d_r_h_p reset_hidden_prev_grad_data)) h_p);
  (* backward for update_gate_weight and reset_gate_weight *)
  let weight_grad_data :=
    gemm true false frame_size (frame_size * 2) batch_size Tone
      hidden_prev_data frame_size
      (data_ptr gate_grad_data) (frame_size * 3)
      Tzero (data_ptr weight_grad_data) (frame_size * 2) in
  (* backward for hidden_prev *)
  let hidden_prev_grad_data :=
    device_assign (whole d_h_p)
      (cwiseAdd (cwiseMul (read (d_r_h_p reset_hidden_prev_grad_data)) r)
                (cwiseMul d_h u)) in
  let hidden_prev_grad_data :=
    gemm false true batch_size frame_size (frame_size * 2) Tone
      (data_ptr gate_grad_data) (frame_size * 3)
      weight_data (frame_size * 2)
      Tone (data_ptr hidden_prev_grad_data) frame_size in
  (* backward for input *)
  let input_grad_data :=
    device_assign (whole d_x) (read (d_g gate_grad_data)) in
  (* backward for bias *)
  let bias_grad_data :=
    device_assign_vec d_b
      (sum_dim0 (read (d_g gate_grad_data)) (dim gate_grad 0)) in
  Ok {| input_grad_out := input_grad_data;
        hidden_prev_grad_out := hidden_prev_grad_data;
        weight_grad_out := weight_grad_data;
        bias_grad_out := bias_grad_data;
        gate_grad_local := gate_grad_data;
        reset_hidden_prev_grad_local := reset_hidden_prev_grad_data |}.

End Backward.

Arguments ExecutionContext T : clear implicits.
Arguments Outputs T : clear implicits.

End GRUUnitGradKernel.

(** ** The vocabulary of the specification *)

Section Specification.

Context {T : Type} {ST : Scalar T} {AT : Activations T}.

(** The activation kinds the operator supports: [identity], [sigmoid],
    [tanh] and [relu]. *)
Definition supported (act_type : Z) : Prop := (0 <= act_type <= 3)%Z.

(** [act(x)] of the specification, for a supported kind. *)
Definition act (act_type : Z) (x : T) : T :=
  if (act_type =? identity)%Z then x
  else if (act_type =? sigmoid)%Z then sigmoid_f x
  else if (act_type =? tanh)%Z then tanh_f x
  else relu_f x.

(** [act_grad(x, y, dy)] of the specification, for a supported kind. *)
Definition act_grad (act_type : Z) (x y dy : T) : T :=
  if (act_type =? identity)%Z then dy
  else if (act_type =? sigmoid)%Z then sigmoid_grad_f x y dy
  else if (act_type =? tanh)%Z then tanh_grad_f x y dy
  else relu_grad_f x y dy.

(** A tensor of [rows] x [cols] elements with a buffer of that size. *)
Definition has_shape (t : Tensor T) (rows cols : nat) : Prop :=
  dims t = [rows; cols] /\ length (data t) = rows * cols.

(** The matrix [rows] x [ld] stored row-major in [buf]. *)
Definition matrix (buf : list T) (ld : nat) : Expr T := coeff buf ld.

(** [M[:, from : ...]]: the columns of [M] from column [from] on. *)
Definition cols_from (M : Expr T) (from : nat) : Expr T :=
  fun i j => M i (from + j).

(** [A @ B], with [K] the inner dimension. *)
Definition matmul (K : nat) (A B : Expr T) : Expr T :=
  fun i j => Tsum K (fun k => Tmul (A i k) (B k j)).

Definition transpose (A : Expr T) : Expr T := fun i j => A j i.

(** The two parts of the weight buffer as the kernels address it: its first
    [2 * f * f] elements are a row-major [f] x [2 * f] matrix (update and
    reset gates), its last [f * f] elements a row-major [f] x [f] matrix
    (candidate). *)
Definition weight_update_reset (w : list T) (f : nat) : Expr T :=
  fun k j => nth (k * (f * 2) + j) w Tzero.

Definition weight_candidate (w : list T) (f : nat) : Expr T :=
  fun k j => nth (f * f * 2 + (k * f + j)) w Tzero.

(** [Weight[:, 0:2f]] and [Weight[:, 2f:3f]] as the specification's data
    model reads them: column ranges of the row-major [f] x [3 * f] matrix. *)
Definition weight_columns (w : list T) (f from : nat) : Expr T :=
  cols_from (matrix w (f * 3)) from.

(** *** Forward *)

Section ForwardSpec.

Variable context : GRUUnitKernel.ExecutionContext T.

(** A valid call of the forward kernel, for [batch_size] rows and hidden
    width [frame_size]. *)
Definition valid_forward (batch_size frame_size : nat) : Prop :=
  has_shape (GRUUnitKernel.Input context) batch_size (frame_size * 3) /\
  has_shape (GRUUnitKernel.HiddenPrev context) batch_size frame_size /\
  has_shape (GRUUnitKernel.Weight context) frame_size (frame_size * 3) /\
  has_shape (GRUUnitKernel.Bias context) 1 (frame_size * 3) /\
  has_shape (GRUUnitKernel.Gate context) batch_size (frame_size * 3) /\
  has_shape (GRUUnitKernel.ResetHiddenPrev context) batch_size frame_size /\
  has_shape (GRUUnitKernel.Hidden context) batch_size frame_size /\
  supported (GRUUnitKernel.gate_activation context) /\
  supported (GRUUnitKernel.activation context).

Variable f : nat.

Let input := matrix (data (GRUUnitKernel.Input context)) (f * 3).
Let hidden_prev := matrix (data (GRUUnitKernel.HiddenPrev context)) f.
Let weight := data (GRUUnitKernel.Weight context).
Let bias := fun j => nth j (data (GRUUnitKernel.Bias context)) Tzero.
Let gate_act := act (GRUUnitKernel.gate_activation context).
Let cand_act := act (GRUUnitKernel.activation context).

(** [Input + Bias], the bias broadcast over the rows. *)
Definition input_plus_bias : Expr T :=
  fun i c => Tadd (input i c) (bias c).

(** The pre-activation of the update and reset gates, columns [0 .. 2f):
    [Input + Bias] plus the recurrent term of the first [gemm]. *)
Definition update_reset_preact : Expr T :=
  fun i c =>
    Tadd (input_plus_bias i c)
         (matmul f hidden_prev (weight_update_reset weight f) i c).

Definition update_preact : Expr T := update_reset_preact.
Definition reset_preact : Expr T := cols_from update_reset_preact f.

(** The pre-activation of the candidate: [Input + Bias] plus the recurrent
    term of the second [gemm], whose left operand is the reset gate times
    the previous hidden state. *)
Definition candidate_preact : Expr T :=
  fun i j =>
    Tadd (input_plus_bias i (f * 2 + j))
         (matmul f
            (fun i k => Tmul (gate_act (reset_preact i k)) (hidden_prev i k))
            (weight_candidate weight f) i j).

End ForwardSpec.

(** *** Backward *)

Section BackwardSpec.

Variable context : GRUUnitGradKernel.ExecutionContext T.

(** A valid call of the backward kernel, for [batch_size] rows and hidden
    width [frame_size]. *)
Definition valid_backward (batch_size frame_size : nat) : Prop :=
  has_shape (GRUUnitGradKernel.Input context) batch_size (frame_size * 3) /\
  has_shape (GRUUnitGradKernel.HiddenPrev context) batch_size frame_size /\
  has_shape (GRUUnitGradKernel.Weight context) frame_size (frame_size * 3) /\
  has_shape (GRUUnitGradKernel.Gate context) batch_size (frame_size * 3) /\
  has_shape (GRUUnitGradKernel.ResetHiddenPrev context)
    batch_size frame_size /\
  has_shape (GRUUnitGradKernel.Hidden_grad context) batch_size frame_size /\
  has_shape (GRUUnitGradKernel.Input_grad context)
    batch_size (frame_size * 3) /\
  has_shape (GRUUnitGradKernel.HiddenPrev_grad context)
    batch_size frame_size /\
  has_shape (GRUUnitGradKernel.Weight_grad context)
    frame_size (frame_size * 3) /\
  has_shape (GRUUnitGradKernel.Bias_grad context) 1 (frame_size * 3) /\
  length (GRUUnitGradKernel.gate_grad_memory context) =
    batch_size * (frame_size * 3) /\
  length (GRUUnitGradKernel.reset_hidden_prev_grad_memory context) =
    batch_size * frame_size /\
  supported (GRUUnitGradKernel.gate_activation context) /\
  supported (GRUUnitGradKernel.activation context).

Variable f : nat.

(** The update gate [u], the reset gate [r] and the candidate [c] of the
    forward pass, the previous hidden state and the gradient that flows in. *)
Definition gate_u : Expr T :=
  cols_from (matrix (data (GRUUnitGradKernel.Gate context)) (f * 3)) 0.
Definition gate_r : Expr T :=
  cols_from (matrix (data (GRUUnitGradKernel.Gate context)) (f * 3)) f.
Definition gate_c : Expr T :=
  cols_from (matrix (data (GRUUnitGradKernel.Gate context)) (f * 3)) (f * 2).
Definition h_prev : Expr T :=
  matrix (data (GRUUnitGradKernel.HiddenPrev context)) f.
Definition d_hidden : Expr T :=
  matrix (data (GRUUnitGradKernel.Hidden_grad context)) f.

(** [act_grad(gate_activation, u, u, dHidden * (HiddenPrev - c))] *)
Definition d_update_preact : Expr T :=
  fun i j =>
    act_grad (GRUUnitGradKernel.gate_activation context)
      (gate_u i j) (gate_u i j)
      (Tmul (d_hidden i j) (Tsub (h_prev i j) (gate_c i j))).

(** [act_grad(activation, c, c, dHidden * (1 - u))] *)
Definition d_candidate_preact : Expr T :=
  fun i j =>
    act_grad (GRUUnitGradKernel.activation context)
      (gate_c i j) (gate_c i j)
      (Tmul (d_hidden i j) (Tsub Tone (gate_u i j))).

(** [act_grad(gate_activation, r, r, dResetHiddenPrev * HiddenPrev)] *)
Definition d_reset_preact (d_reset_hidden_prev : Expr T) : Expr T :=
  fun i j =>
    act_grad (GRUUnitGradKernel.gate_activation context)
      (gate_r i j) (gate_r i j)
      (Tmul (d_reset_hidden_prev i j) (h_prev i j)).

(** [dResetHiddenPrev = dGate[:, 2f:3f] @ Wc^T], with [Wc] the candidate
    part of the weight buffer. *)
Definition d_reset_hidden_prev : Expr T :=
  matmul f d_candidate_preact
    (transpose
       (weight_candidate (data (GRUUnitGradKernel.Weight context)) f)).

(** The gate gradient of a call, all of its [3f] columns, from the inputs
    of the call: the update block, the reset block and the candidate
    block. *)
Definition gate_gradient : Expr T :=
  fun i c =>
    if c <? f then d_update_preact i c
    else if c <? f * 2 then d_reset_preact d_reset_hidden_prev i (c - f)
    else d_candidate_preact i (c - f * 2).

End BackwardSpec.

(** Two calls of the backward kernel that agree on everything but the
    values held by [Input]. *)
Definition agree_up_to_input_values
    (c1 c2 : GRUUnitGradKernel.ExecutionContext T) : Prop :=
  dims (GRUUnitGradKernel.Input c1) = dims (GRUUnitGradKernel.Input c2) /\
  GRUUnitGradKernel.HiddenPrev c1 = GRUUnitGradKernel.HiddenPrev c2 /\
  GRUUnitGradKernel.Weight c1 = GRUUnitGradKernel.Weight c2 /\
  GRUUnitGradKernel.Gate c1 = GRUUnitGradKernel.Gate c2 /\
  GRUUnitGradKernel.ResetHiddenPrev c1 =
    GRUUnitGradKernel.ResetHiddenPrev c2 /\
  GRUUnitGradKernel.Hidden_grad c1 = GRUUnitGradKernel.Hidden_grad c2 /\
  GRUUnitGradKernel.gate_activation c1 =
    GRUUnitGradKernel.gate_activation c2 /\
  GRUUnitGradKernel.activation c1 = GRUUnitGradKernel.activation c2 /\
  GRUUnitGradKernel.Input_grad c1 = GRUUnitGradKernel.Input_grad c2 /\
  GRUUnitGradKernel.HiddenPrev_grad c1 =
    GRUUnitGradKernel.HiddenPrev_grad c2 /\
  GRUUnitGradKernel.Weight_grad c1 = GRUUnitGradKernel.Weight_grad c2 /\
  GRUUnitGradKernel.Bias_grad c1 = GRUUnitGradKernel.Bias_grad c2 /\
  GRUUnitGradKernel.gate_grad_memory c1 =
    GRUUnitGradKernel.gate_grad_memory c2 /\
  GRUUnitGradKernel.reset_hidden_prev_grad_memory c1 =
    GRUUnitGradKernel.reset_hidden_prev_grad_memory c2.

(** *** The two statements about the weight columns, as the specification
    words them *)

(** After the first [gemm], the columns [0 .. 2f) of [Gate] are
    [Input + Bias + HiddenPrev @ Weight[:, 0:2f]], with [Weight[:, 0:2f]]
    the first [2f] columns of the row-major [f] x [3f] weight matrix. *)
Definition update_reset_term_as_stated
    (context : GRUUnitKernel.ExecutionContext T) (b f : nat) : Prop :=
  forall i c, i < b -> c < f * 2 ->
    matrix (GRUUnitKernel.unactivated_gate context) (f * 3) i c =
      Tadd (input_plus_bias context f i c)
           (matmul f (matrix (data (GRUUnitKernel.HiddenPrev context)) f)
              (weight_columns (data (GRUUnitKernel.Weight context)) f 0) i c).

(** [dHiddenPrev = dResetHiddenPrev * r + dHidden * u
                   + dGate[:, 0:2f] @ Weight[:, 0:2f]^T], with the same
    reading of [Weight[:, 0:2f]]. *)
Definition hidden_prev_grad_as_stated
    (context : GRUUnitGradKernel.ExecutionContext T) (b f : nat)
    (out : GRUUnitGradKernel.Outputs T) : Prop :=
  let d_g := matrix (GRUUnitGradKernel.gate_grad_local out) (f * 3) in
  let d_r_h_p :=
    matrix (GRUUnitGradKernel.reset_hidden_prev_grad_local out) f in
  forall i j, i < b -> j < f ->
    matrix (GRUUnitGradKernel.hidden_prev_grad_out out) f i j =
      Tadd (Tadd (Tmul (d_r_h_p i j) (gate_r context f i j))
                 (Tmul (d_hidden context f i j) (gate_u context f i j)))
           (matmul (f * 2) d_g
              (transpose
                 (weight_columns (data (GRUUnitGradKernel.Weight context))
                    f 0))
              i j).

End Specification.

(** ** Concrete calls

    Two rows, hidden width two, over the integers. *)

Definition example_forward : GRUUnitKernel.ExecutionContext Z := {|
  GRUUnitKernel.Input :=
    mkTensor [2; 6] [1; 2; 3; 4; 5; 6; 5; 4; 2; 1; 0; 3]%Z;
  GRUUnitKernel.HiddenPrev := mkTensor [2; 2] [0; 1; 2; -1]%Z;
  GRUUnitKernel.Weight :=
    mkTensor [2; 6] [0; 1; 2; 3; 4; 5; 6; 7; 8; 9; 10; 11]%Z;
  GRUUnitKernel.Bias := mkTensor [1; 6] [1; 0; -1; 2; 0; 1]%Z;
  GRUUnitKernel.gate_activation := relu;
  GRUUnitKernel.activation := identity;
  GRUUnitKernel.Gate := mkTensor [2; 6] (replicate 12 7%Z);
  GRUUnitKernel.ResetHiddenPrev := mkTensor [2; 2] (replicate 4 7%Z);
  GRUUnitKernel.Hidden := mkTensor [2; 2] (replicate 4 7%Z)
|}.

(** A backward call on the values that [example_forward] produces. *)
Definition example_backward : GRUUnitGradKernel.ExecutionContext Z := {|
  GRUUnitGradKernel.Input :=
    mkTensor [2; 6] [1; 2; 3; 4; 5; 6; 5; 4; 2; 1; 0; 3]%Z;
  GRUUnitGradKernel.HiddenPrev := mkTensor [2; 2] [0; 1; 2; -1]%Z;
  GRUUnitGradKernel.Weight :=
    mkTensor [2; 6] [0; 1; 2; 3; 4; 5; 6; 7; 8; 9; 10; 11]%Z;
  GRUUnitGradKernel.Gate :=
    mkTensor [2; 6] [6; 7; 8; 13; 135; 150; 2; 1; 0; 2; -20; -18]%Z;
  GRUUnitGradKernel.ResetHiddenPrev := mkTensor [2; 2] [0; 13; 0; -2]%Z;
  GRUUnitGradKernel.Hidden_grad := mkTensor [2; 2] [1; -2; 3; 1]%Z;
  GRUUnitGradKernel.gate_activation := relu;
  GRUUnitGradKernel.activation := identity;
  GRUUnitGradKernel.Input_grad := mkTensor [2; 6] (replicate 12 7%Z);
  GRUUnitGradKernel.HiddenPrev_grad := mkTensor [2; 2] (replicate 4 7%Z);
  GRUUnitGradKernel.Weight_grad := mkTensor [2; 6] (replicate 12 7%Z);
  GRUUnitGradKernel.Bias_grad := mkTensor [1; 6] (replicate 6 7%Z);
  GRUUnitGradKernel.gate_grad_memory := replicate 12 7%Z;
  GRUUnitGradKernel.reset_hidden_prev_grad_memory := replicate 4 7%Z
|}.


(** The same calls with an activation kind that does not exist. *)
Definition example_forward_unsupported : GRUUnitKernel.ExecutionContext Z := {|
  GRUUnitKernel.Input := GRUUnitKernel.Input example_forward;
  GRUUnitKernel.HiddenPrev := GRUUnitKernel.HiddenPrev example_forward;
  GRUUnitKernel.Weight := GRUUnitKernel.Weight example_forward;
  GRUUnitKernel.Bias := GRUUnitKernel.Bias example_forward;
  GRUUnitKernel.gate_activation := relu;
  GRUUnitKernel.activation := 4;
  GRUUnitKernel.Gate := GRUUnitKernel.Gate example_forward;
  GRUUnitKernel.ResetHiddenPrev := GRUUnitKernel.ResetHiddenPrev example_forward;
  GRUUnitKernel.Hidden := GRUUnitKernel.Hidden example_forward
|}.

Definition example_backward_unsupported
  : GRUUnitGradKernel.ExecutionContext Z := {|
  GRUUnitGradKernel.Input := GRUUnitGradKernel.Input example_backward;
  GRUUnitGradKernel.HiddenPrev := GRUUnitGradKernel.HiddenPrev example_backward;
  GRUUnitGradKernel.Weight := GRUUnitGradKernel.Weight example_backward;
  GRUUnitGradKernel.Gate := GRUUnitGradKernel.Gate example_backward;
  GRUUnitGradKernel.ResetHiddenPrev :=
    GRUUnitGradKernel.ResetHiddenPrev example_backward;
  GRUUnitGradKernel.Hidden_grad := GRUUnitGradKernel.Hidden_grad example_backward;
  GRUUnitGradKernel.gate_activation := (-1);
  GRUUnitGradKernel.activation := tanh;
  GRUUnitGradKernel.Input_grad := GRUUnitGradKernel.Input_grad example_backward;
  GRUUnitGradKernel.HiddenPrev_grad :=
    GRUUnitGradKernel.HiddenPrev_grad example_backward;
  GRUUnitGradKernel.Weight_grad := GRUUnitGradKernel.Weight_grad example_backward;
  GRUUnitGradKernel.Bias_grad := GRUUnitGradKernel.Bias_grad example_backward;
  GRUUnitGradKernel.gate_grad_memory :=
    GRUUnitGradKernel.gate_grad_memory example_backward;
  GRUUnitGradKernel.reset_hidden_prev_grad_memory :=
    GRUUnitGradKernel.reset_hidden_prev_grad_memory example_backward
|}.

(** [example_backward] with other values in [Input]. *)
Definition example_backward_other_input
  : GRUUnitGradKernel.ExecutionContext Z := {|
  GRUUnitGradKernel.Input :=
    mkTensor [2; 6] [9; 8; 7; 6; 5; 4; 3; 2; 1; 0; -1; -2]%Z;
  GRUUnitGradKernel.HiddenPrev := GRUUnitGradKernel.HiddenPrev example_backward;
  GRUUnitGradKernel.Weight := GRUUnitGradKernel.Weight example_backward;
  GRUUnitGradKernel.Gate := GRUUnitGradKernel.Gate example_backward;
  GRUUnitGradKernel.ResetHiddenPrev :=
    GRUUnitGradKernel.ResetHiddenPrev example_backward;
  GRUUnitGradKernel.Hidden_grad := GRUUnitGradKernel.Hidden_grad example_backward;
  GRUUnitGradKernel.gate_activation :=
    GRUUnitGradKernel.gate_activation example_backward;
  GRUUnitGradKernel.activation := GRUUnitGradKernel.activation example_backward;
  GRUUnitGradKernel.Input_grad := GRUUnitGradKernel.Input_grad example_backward;
  GRUUnitGradKernel.HiddenPrev_grad :=
    GRUUnitGradKernel.HiddenPrev_grad example_backward;
  GRUUnitGradKernel.Weight_grad := GRUUnitGradKernel.Weight_grad example_backward;
  GRUUnitGradKernel.Bias_grad := GRUUnitGradKernel.Bias_grad example_backward;
  GRUUnitGradKernel.gate_grad_memory :=
    GRUUnitGradKernel.gate_grad_memory example_backward;
  GRUUnitGradKernel.reset_hidden_prev_grad_memory :=
    GRUUnitGradKernel.reset_hidden_prev_grad_memory example_backward
|}.

(** ** Further vocabulary: agreement of two calls *)

Section Agreement.

Context {T : Type} {ST : Scalar T}.

(** Two matrices agree on the first [n] columns of row [i]. *)
Definition same_row (A B : Expr T) (i n : nat) : Prop :=
  forall c, c < n -> A i c = B i c.

(** Two forward calls with the same inputs and attributes; the output
    tensors, as allocated, may hold anything. *)
Definition same_forward_inputs
    (c1 c2 : GRUUnitKernel.ExecutionContext T) : Prop :=
  GRUUnitKernel.Input c1 = GRUUnitKernel.Input c2 /\
  GRUUnitKernel.HiddenPrev c1 = GRUUnitKernel.HiddenPrev c2 /\
  GRUUnitKernel.Weight c1 = GRUUnitKernel.Weight c2 /\
  GRUUnitKernel.Bias c1 = GRUUnitKernel.Bias c2 /\
  GRUUnitKernel.gate_activation c1 = GRUUnitKernel.gate_activation c2 /\
  GRUUnitKernel.activation c1 = GRUUnitKernel.activation c2.

(** Two backward calls with the same inputs (of [Input], the dimensions)
    and attributes; the output tensors, as allocated, and the memory of the
    two local tensors may hold anything. *)
Definition same_backward_inputs
    (c1 c2 : GRUUnitGradKernel.ExecutionContext T) : Prop :=
  dims (GRUUnitGradKernel.Input c1) = dims (GRUUnitGradKernel.Input c2) /\
  GRUUnitGradKernel.HiddenPrev c1 = GRUUnitGradKernel.HiddenPrev c2 /\
  GRUUnitGradKernel.Weight c1 = GRUUnitGradKernel.Weight c2 /\
  GRUUnitGradKernel.Gate c1 = GRUUnitGradKernel.Gate c2 /\
  GRUUnitGradKernel.ResetHiddenPrev c1 =
    GRUUnitGradKernel.ResetHiddenPrev c2 /\
  GRUUnitGradKernel.Hidden_grad c1 = GRUUnitGradKernel.Hidden_grad c2 /\
  GRUUnitGradKernel.gate_activation c1 =
    GRUUnitGradKernel.gate_activation c2 /\
  GRUUnitGradKernel.activation c1 = GRUUnitGradKernel.activation c2.

(** The four gradients that the backward kernel hands back. *)
Definition gradients (out : GRUUnitGradKernel.Outputs T)
  : list T * list T * list T * list T :=
  (GRUUnitGradKernel.input_grad_out out,
   GRUUnitGradKernel.hidden_prev_grad_out out,
   GRUUnitGradKernel.weight_grad_out out,
   GRUUnitGradKernel.bias_grad_out out).

End Agreement.

(** [example_forward] with other contents in the output tensors. *)
Definition example_forward_dirty : GRUUnitKernel.ExecutionContext Z := {|
  GRUUnitKernel.Input := GRUUnitKernel.Input example_forward;
  GRUUnitKernel.HiddenPrev := GRUUnitKernel.HiddenPrev example_forward;
  GRUUnitKernel.Weight := GRUUnitKernel.Weight example_forward;
  GRUUnitKernel.Bias := GRUUnitKernel.Bias example_forward;
  GRUUnitKernel.gate_activation := relu;
  GRUUnitKernel.activation := identity;
  GRUUnitKernel.Gate := mkTensor [2; 6] (replicate 12 (-3)%Z);
  GRUUnitKernel.ResetHiddenPrev := mkTensor [2; 2] [1; 2; 3; 4]%Z;
  GRUUnitKernel.Hidden := mkTensor [2; 2] (replicate 4 0%Z)
|}.

(** A call with three rows whose row 1 is row 1 of [example_forward]. *)
Definition example_forward_other_rows : GRUUnitKernel.ExecutionContext Z := {|
  GRUUnitKernel.Input :=
    mkTensor [3; 6]
      [0; 0; 9; 9; -4; 2; 5; 4; 2; 1; 0; 3; 7; 7; 7; 7; 7; 7]%Z;
  GRUUnitKernel.HiddenPrev := mkTensor [3; 2] [5; 5; 2; -1; 3; 0]%Z;
  GRUUnitKernel.Weight := GRUUnitKernel.Weight example_forward;
  GRUUnitKernel.Bias := GRUUnitKernel.Bias example_forward;
  GRUUnitKernel.gate_activation := relu;
  GRUUnitKernel.activation := identity;
  GRUUnitKernel.Gate := mkTensor [3; 6] (replicate 18 7%Z);
  GRUUnitKernel.ResetHiddenPrev := mkTensor [3; 2] (replicate 6 7%Z);
  GRUUnitKernel.Hidden := mkTensor [3; 2] (replicate 6 7%Z)
|}.

(** [example_forward] with other candidate weights, the last [f * f]
    elements of the weight buffer. *)
Definition example_forward_other_candidate
  : GRUUnitKernel.ExecutionContext Z := {|
  GRUUnitKernel.Input := GRUUnitKernel.Input example_forward;
  GRUUnitKernel.HiddenPrev := GRUUnitKernel.HiddenPrev example_forward;
  GRUUnitKernel.Weight :=
    mkTensor [2; 6] [0; 1; 2; 3; 4; 5; 6; 7; -1; -2; -3; -4]%Z;
  GRUUnitKernel.Bias := GRUUnitKernel.Bias example_forward;
  GRUUnitKernel.gate_activation := relu;
  GRUUnitKernel.activation := identity;
  GRUUnitKernel.Gate := GRUUnitKernel.Gate example_forward;
  GRUUnitKernel.ResetHiddenPrev := GRUUnitKernel.ResetHiddenPrev example_forward;
  GRUUnitKernel.Hidden := GRUUnitKernel.Hidden example_forward
|}.

(** [example_backward] with other values in [Input], other contents in the
    output tensors and other memory for the local tensors. *)
Definition example_backward_dirty : GRUUnitGradKernel.ExecutionContext Z := {|
  GRUUnitGradKernel.Input :=
    mkTensor [2; 6] [9; 8; 7; 6; 5; 4; 3; 2; 1; 0; -1; -2]%Z;
  GRUUnitGradKernel.HiddenPrev := GRUUnitGradKernel.HiddenPrev example_backward;
  GRUUnitGradKernel.Weight := GRUUnitGradKernel.Weight example_backward;
  GRUUnitGradKernel.Gate := GRUUnitGradKernel.Gate example_backward;
  GRUUnitGradKernel.ResetHiddenPrev :=
    GRUUnitGradKernel.ResetHiddenPrev example_backward;
  GRUUnitGradKernel.Hidden_grad := GRUUnitGradKernel.Hidden_grad example_backward;
  GRUUnitGradKernel.gate_activation := relu;
  GRUUnitGradKernel.activation := identity;
  GRUUnitGradKernel.Input_grad := mkTensor [2; 6] (replicate 12 (-1)%Z);
  GRUUnitGradKernel.HiddenPrev_grad := mkTensor [2; 2] [4; 3; 2; 1]%Z;
  GRUUnitGradKernel.Weight_grad := mkTensor [2; 6] (replicate 12 100%Z);
  GRUUnitGradKernel.Bias_grad := mkTensor [1; 6] (replicate 6 (-9)%Z);
  GRUUnitGradKernel.gate_grad_memory := replicate 12 55%Z;
  GRUUnitGradKernel.reset_hidden_prev_grad_memory := [9; 8; 7; 6]%Z
|}.

(** A backward call with three rows whose row 1 is row 1 of
    [example_backward]. *)
Definition example_backward_other_rows
  : GRUUnitGradKernel.ExecutionContext Z := {|
  GRUUnitGradKernel.Input := mkTensor [3; 6] (replicate 18 0%Z);
  GRUUnitGradKernel.HiddenPrev := mkTensor [3; 2] [5; 5; 2; -1; 3; 0]%Z;
  GRUUnitGradKernel.Weight := GRUUnitGradKernel.Weight example_backward;
  GRUUnitGradKernel.Gate :=
    mkTensor [3; 6]
      [1; 1; 1; 1; 1; 1; 2; 1; 0; 2; -20; -18; 4; 0; 3; 3; 2; 9]%Z;
  GRUUnitGradKernel.ResetHiddenPrev :=
    mkTensor [3; 2] [5; 5; 0; -2; 9; 0]%Z;
  GRUUnitGradKernel.Hidden_grad := mkTensor [3; 2] [7; 7; 3; 1; -2; 5]%Z;
  GRUUnitGradKernel.gate_activation := relu;
  GRUUnitGradKernel.activation := identity;
  GRUUnitGradKernel.Input_grad := mkTensor [3; 6] (replicate 18 1%Z);
  GRUUnitGradKernel.HiddenPrev_grad := mkTensor [3; 2] (replicate 6 1%Z);
  GRUUnitGradKernel.Weight_grad := mkTensor [2; 6] (replicate 12 1%Z);
  GRUUnitGradKernel.Bias_grad := mkTensor [1; 6] (replicate 6 1%Z);
  GRUUnitGradKernel.gate_grad_memory := replicate 18 1%Z;
  GRUUnitGradKernel.reset_hidden_prev_grad_memory := replicate 6 1%Z
|}.

(** ** Reading a buffer after a write *)

Section BufferFacts.

Context {T : Type} {ST : Scalar T}.

Implicit Types (buf : list T) (e : Expr T).

Lemma length_write_row buf base f n :
  length (write_row buf base f n) = length buf.
Proof.
  induction n as [|n IH]; simpl; [reflexivity|].
  now rewrite length_insert.
Qed.

Lemma length_write_rows buf base ld e n m :
  length (write_rows buf base ld e n m) = length buf.
Proof.
  induction m as [|m IH]; simpl; [reflexivity|].
  now rewrite length_write_row.
Qed.

Lemma lookup_write_row buf base f n k :
  base + n <= length buf ->
  write_row buf base f n !! k =
    if decide (base <= k < base + n) then Some (f (k - base)) else buf !! k.
Proof.
  induction n as [|n IH]; intros Hlen; cbn [write_row].
  - case_decide; [lia | reflexivity].
  - destruct (decide (k = base + n)) as [->|Hne].
    + clear IH.
      rewrite list_lookup_insert_eq by (rewrite length_write_row; lia).
      case_decide; [|lia]. f_equal. f_equal. lia.
    + rewrite list_lookup_insert_ne by congruence.
      rewrite IH by lia.
      repeat case_decide; try lia; reflexivity.
Qed.

Lemma lookup_write_rows buf off ld e n m i c :
  off + n <= ld -> c < ld -> m * ld <= length buf ->
  write_rows buf off ld e n m !! (i * ld + c) =
    if decide (i < m /\ off <= c < off + n)
    then Some (e i (c - off)) else buf !! (i * ld + c).
Proof.
  intros Hn Hc. induction m as [|m IH]; intros Hlen; cbn [write_rows].
  - case_decide; [lia | reflexivity].
  - rewrite Nat.mul_succ_l in Hlen.
    rewrite lookup_write_row by (rewrite length_write_rows; lia).
    rewrite IH by lia. clear IH.
    destruct (decide (i = m)) as [->|Hne].
    + repeat case_decide; try lia; [|reflexivity].
      f_equal. f_equal. lia.
    + assert (i < m \/ m < i) as [Hlt|Hgt] by lia.
      * repeat case_decide; try nia; reflexivity.
      * repeat case_decide; try nia; reflexivity.
Qed.

(** A coefficient inside the written block. *)
Lemma coeff_write_rows_in buf off ld e n m i c :
  off + n <= ld -> m * ld <= length buf ->
  i < m -> off <= c < off + n ->
  coeff (write_rows buf off ld e n m) ld i c = e i (c - off).
Proof.
  intros Hn Hlen Hi Hc. unfold coeff.
  rewrite nth_lookup, lookup_write_rows by lia.
  case_decide; [reflexivity | lia].
Qed.

(** A coefficient in another column block, or in a later row. *)
Lemma coeff_write_rows_out buf off ld e n m i c :
  off + n <= ld -> m * ld <= length buf -> c < ld ->
  m <= i \/ c < off \/ off + n <= c ->
  coeff (write_rows buf off ld e n m) ld i c = coeff buf ld i c.
Proof.
  intros Hn Hlen Hc Hout. unfold coeff.
  rewrite !nth_lookup, lookup_write_rows by lia.
  case_decide; [lia | reflexivity].
Qed.

(** Sums of pointwise equal terms. *)
Lemma Tsum_ext n (f g : nat -> T) :
  (forall k, k < n -> f k = g k) -> Tsum n f = Tsum n g.
Proof.
  induction n as [|n IH]; intros H; simpl; [reflexivity|].
  rewrite IH by (intros; apply H; lia).
  now rewrite H by lia.
Qed.

End BufferFacts.

Section ForwardFacts.

Context {T : Type} {ST : Scalar T} {AT : Activations T}.

Lemma has_shape_dim0 (t : Tensor T) r c : has_shape t r c -> dim t 0 = r.
Proof. intros [H _]. unfold dim. now rewrite H. Qed.

Lemma has_shape_dim1 (t : Tensor T) r c : has_shape t r c -> dim t 1 = c.
Proof. intros [H _]. unfold dim. now rewrite H. Qed.

Lemma has_shape_length (t : Tensor T) r c :
  has_shape t r c -> length (data t) = r * c.
Proof. now intros [_ H]. Qed.

Lemma ActCompute_supported act_type (x : Expr T) (y : LValue T) :
  supported act_type ->
  GRUUnitKernel.ActCompute act_type x y =
    Ok (device_assign y (fun i j => act act_type (x i j))).
Proof.
  intros H. unfold supported in H.
  assert (act_type = 0 \/ act_type = 1 \/ act_type = 2 \/ act_type = 3)%Z
    as [-> | [-> | [-> | ->]]] by lia; reflexivity.
Qed.

Lemma deref_data_ptr (buf : list T) ld i c :
  deref (data_ptr buf) (i * ld + c) = coeff buf ld i c.
Proof. reflexivity. Qed.

Import GRUUnitKernel.

Lemma unactivated_gate_coeff (context : ExecutionContext T) b f :
  valid_forward context b f ->
  length (unactivated_gate context) = b * (f * 3) /\
  forall i c, i < b -> c < f * 3 ->
    coeff (unactivated_gate context) (f * 3) i c =
      if decide (c < f * 2)
      then Tadd (Tmul Tone
                   (matmul f (matrix (data (HiddenPrev context)) f)
                      (weight_update_reset (data (Weight context)) f) i c))
                (Tmul Tone (input_plus_bias context f i c))
      else input_plus_bias context f i c.
Proof.
  intros (HI & HH & HW & HB & HG & HR & HO & Hga & Ha).
  unfold unactivated_gate, gemm, device_assign, whole, EigenMatrix_From, view.
  cbn [lv_map lv_offsets lv_extents tm_data tm_rows tm_cols fst snd data_ptr].
  rewrite ?(has_shape_dim0 _ _ _ HI), ?(has_shape_dim1 _ _ _ HI),
    ?(has_shape_dim1 _ _ _ HH), ?(has_shape_dim0 _ _ _ HB),
    ?(has_shape_dim1 _ _ _ HB),
    ?(has_shape_dim0 _ _ _ HG), ?(has_shape_dim1 _ _ _ HG).
  pose proof (has_shape_length _ _ _ HG) as HlenG.
  match goal with
  | |- context [write_rows (data (Gate context)) ?o ?l ?e ?n ?m] =>
      set (G0 := write_rows (data (Gate context)) o l e n m)
  end.
  assert (HlenG0 : length G0 = b * (f * 3))
    by (unfold G0; now rewrite length_write_rows).
  assert (HG0 : forall i c, i < b -> c < f * 3 ->
            coeff G0 (f * 3) i c = input_plus_bias context f i c).
  { intros i c Hi Hc. unfold G0.
    rewrite coeff_write_rows_in by lia.
    unfold cwiseAdd, input_plus_bias, broadcast, read, reshape, matrix, coeff.
    cbn [tm_data tm_rows tm_cols].
    rewrite Nat.mod_1_r, Nat.mod_small by lia.
    now rewrite Nat.sub_0_r. }
  split; [now rewrite length_write_rows|].
  intros i c Hi Hc. case_decide as Hc2.
  - rewrite coeff_write_rows_in by lia.
    rewrite Nat.sub_0_r, deref_data_ptr, HG0 by lia.
    cbn zeta. now rewrite Tis_zero_one.
  - rewrite coeff_write_rows_out by lia.
    now apply HG0.
Qed.


Lemma length_device_assign (y : LValue T) e :
  length (device_assign y e) = length (tm_data (lv_map y)).
Proof. unfold device_assign. apply length_write_rows. Qed.

Lemma length_gemm tA tB M N K alpha (A : Ptr T) lda (B : Ptr T) ldb beta
    (C : Ptr T) ldc :
  length (gemm tA tB M N K alpha A lda B ldb beta C ldc) = length (fst C).
Proof. unfold gemm. apply length_write_rows. Qed.

(** Assignment to the columns [off .. off + n) of the first [m] rows. *)
Lemma coeff_assign_slice (buf : list T) rows ld off n m e i c :
  off + n <= ld -> m * ld <= length buf -> i < m -> c < ld ->
  coeff (device_assign (slice_of (mkMap buf rows ld) (0, off) (m, n)) e) ld i c =
    if decide (off <= c < off + n) then e i (c - off) else coeff buf ld i c.
Proof.
  intros Hn Hlen Hi Hc. unfold device_assign, slice_of.
  cbn [lv_map lv_offsets lv_extents tm_data tm_cols fst snd].
  change (0 * ld + off) with off.
  case_decide.
  - now apply coeff_write_rows_in.
  - apply coeff_write_rows_out; lia.
Qed.

(** Assignment to a whole view. *)
Lemma coeff_assign_whole (buf : list T) rows ld e i c :
  rows * ld <= length buf -> i < rows -> c < ld ->
  coeff (device_assign (whole (mkMap buf rows ld)) e) ld i c = e i c.
Proof.
  intros Hlen Hi Hc. unfold device_assign, whole.
  cbn [lv_map lv_offsets lv_extents tm_data tm_cols tm_rows fst snd].
  change (0 * ld + 0) with 0.
  rewrite coeff_write_rows_in by lia.
  now rewrite Nat.sub_0_r.
Qed.

(** [gemm] into the columns [off .. off + N) of the first [M] rows of a
    matrix with rows of length [ldc], when it accumulates. *)
Lemma coeff_gemm tA tB M N K alpha (A : Ptr T) lda (B : Ptr T) ldb beta
    (C : list T) off ldc i c :
  Tis_zero beta = false ->
  off + N <= ldc -> M * ldc <= length C -> i < M -> c < ldc ->
  coeff (gemm tA tB M N K alpha A lda B ldb beta (C, off) ldc) ldc i c =
    if decide (off <= c < off + N)
    then Tadd (Tmul alpha
                 (Tsum K (fun k =>
                    Tmul (if tA then deref A (k * lda + i)
                          else deref A (i * lda + k))
                         (if tB then deref B ((c - off) * ldb + k)
                          else deref B (k * ldb + (c - off))))))
              (Tmul beta (coeff C ldc i c))
    else coeff C ldc i c.
Proof.
  intros Hbeta Hn Hlen Hi Hc. unfold gemm. cbn [fst snd]. rewrite Hbeta.
  case_decide.
  - rewrite coeff_write_rows_in by lia.
    unfold deref at 5, coeff at 1. cbn [fst snd].
    do 3 f_equal. lia.
  - apply coeff_write_rows_out; lia.
Qed.

(** The same when it overwrites: the old coefficient has no part in the new
    one. *)
Lemma coeff_gemm_overwrite tA tB M N K alpha (A : Ptr T) lda (B : Ptr T) ldb
    beta (C : list T) off ldc i c :
  Tis_zero beta = true ->
  off + N <= ldc -> M * ldc <= length C -> i < M -> c < ldc ->
  coeff (gemm tA tB M N K alpha A lda B ldb beta (C, off) ldc) ldc i c =
    if decide (off <= c < off + N)
    then Tmul alpha
           (Tsum K (fun k =>
              Tmul (if tA then deref A (k * lda + i)
                    else deref A (i * lda + k))
                   (if tB then deref B ((c - off) * ldb + k)
                    else deref B (k * ldb + (c - off)))))
    else coeff C ldc i c.
Proof.
  intros Hbeta Hn Hlen Hi Hc. unfold gemm. cbn [fst snd]. rewrite Hbeta.
  case_decide.
  - now rewrite coeff_write_rows_in by lia.
  - apply coeff_write_rows_out; lia.
Qed.

Lemma forward_Compute_post (context : ExecutionContext T) b f :
  valid_forward context b f ->
  exists out,
    Compute context = Ok out /\
    length (gate_out out) = b * (f * 3) /\
    (forall i c, i < b -> c < f * 2 ->
       coeff (gate_out out) (f * 3) i c =
         act (gate_activation context)
           (coeff (unactivated_gate context) (f * 3) i c)) /\
    (forall i j, i < b -> j < f ->
       coeff (reset_hidden_prev_out out) f i j =
         Tmul (coeff (gate_out out) (f * 3) i (f + j))
              (coeff (data (HiddenPrev context)) f i j)) /\
    (forall i j, i < b -> j < f ->
       coeff (gate_out out) (f * 3) i (f * 2 + j) =
         act (activation context)
           (Tadd (Tmul Tone
                    (matmul f (matrix (reset_hidden_prev_out out) f)
                       (weight_candidate (data (Weight context)) f) i j))
                 (Tmul Tone
                    (coeff (unactivated_gate context) (f * 3) i (f * 2 + j))))) /\
    (forall i j, i < b -> j < f ->
       coeff (hidden_out out) f i j =
         Tadd (Tmul (coeff (gate_out out) (f * 3) i j)
                 (Tsub (coeff (data (HiddenPrev context)) f i j)
                       (coeff (gate_out out) (f * 3) i (f * 2 + j))))
              (coeff (gate_out out) (f * 3) i (f * 2 + j))).
Proof.
  intros Hv.
  destruct (unactivated_gate_coeff context b f Hv) as [HlenU _].
  destruct Hv as (HI & HH & HW & HB & HG & HR & HO & Hga & Ha).
  unfold Compute.
  repeat (rewrite ActCompute_supported by assumption;
          unfold mbind at 1, Result_bind at 1; cbn beta iota).
  eexists; split; [reflexivity|].
  cbn [gate_out reset_hidden_prev_out hidden_out].
  unfold view, EigenMatrix_From, view.
  rewrite ?(has_shape_dim0 _ _ _ HI), ?(has_shape_dim1 _ _ _ HI),
    ?(has_shape_dim0 _ _ _ HH), ?(has_shape_dim1 _ _ _ HH),
    ?(has_shape_dim0 _ _ _ HR), ?(has_shape_dim1 _ _ _ HR),
    ?(has_shape_dim0 _ _ _ HO), ?(has_shape_dim1 _ _ _ HO),
    ?(has_shape_dim0 _ _ _ HG), ?(has_shape_dim1 _ _ _ HG).
  set (U := unactivated_gate context) in *.
  set (G1 := device_assign (slice_of (mkMap U b (f * 3)) (0, 0) (b, f)) _).
  set (G2 := device_assign (slice_of (mkMap G1 b (f * 3)) (0, f) (b, f)) _).
  set (R := device_assign
              (whole (mkMap (data (ResetHiddenPrev context)) b f)) _).
  set (G3 := gemm false false b f f Tone (data_ptr R) f _ f Tone _ (f * 3)).
  set (G4 := device_assign
               (slice_of (mkMap G3 b (f * 3)) (0, f * 2) (b, f)) _).
  assert (HlenG1 : length G1 = b * (f * 3))
    by (unfold G1; now rewrite length_device_assign).
  assert (HlenG2 : length G2 = b * (f * 3))
    by (unfold G2; now rewrite length_device_assign).
  assert (HlenG3 : length G3 = b * (f * 3))
    by (unfold G3; now rewrite length_gemm).
  assert (HlenG4 : length G4 = b * (f * 3))
    by (unfold G4; now rewrite length_device_assign).
  assert (HG1 : forall i c, i < b -> c < f * 3 ->
            coeff G1 (f * 3) i c =
              if decide (c < f)
              then act (gate_activation context) (coeff U (f * 3) i c)
              else coeff U (f * 3) i c).
  { intros i c Hi Hc. unfold G1.
    rewrite coeff_assign_slice by lia.
    repeat case_decide; try lia; [|reflexivity].
    unfold slice, read. cbn [tm_data tm_cols fst snd].
    now rewrite Nat.add_0_r, Nat.sub_0_r, Nat.add_0_r. }
  assert (HG2 : forall i c, i < b -> c < f * 3 ->
            coeff G2 (f * 3) i c =
              if decide (c < f * 2)
              then act (gate_activation context) (coeff U (f * 3) i c)
              else coeff U (f * 3) i c).
  { intros i c Hi Hc. unfold G2.
    rewrite coeff_assign_slice by lia.
    unfold slice, read. cbn [tm_data tm_cols fst snd].
    rewrite Nat.add_0_r.
    repeat case_decide; try lia.
    - replace (c - f + f) with c by lia.
      rewrite HG1 by lia. case_decide; [lia | reflexivity].
    - rewrite HG1 by lia. case_decide; [reflexivity | lia].
    - rewrite HG1 by lia. case_decide; [lia | reflexivity]. }
  assert (HlenR : length R = b * f).
  { unfold R. rewrite length_device_assign.
    apply (has_shape_length _ _ _ HR). }
  assert (HR' : forall i j, i < b -> j < f ->
            coeff R f i j =
              Tmul (coeff G2 (f * 3) i (f + j))
                   (coeff (data (HiddenPrev context)) f i j)).
  { intros i j Hi Hj. unfold R.
    rewrite coeff_assign_whole
      by (rewrite ?(has_shape_length _ _ _ HR); lia).
    unfold cwiseMul, slice, read. cbn [tm_data tm_cols fst snd].
    now rewrite Nat.add_0_r, (Nat.add_comm j f). }
  assert (HG3 : forall i c, i < b -> c < f * 3 ->
            coeff G3 (f * 3) i c =
              if decide (f * 2 <= c)
              then Tadd (Tmul Tone
                           (matmul f (matrix R f)
                              (weight_candidate (data (Weight context)) f)
                              i (c - f * 2)))
                        (Tmul Tone (coeff G2 (f * 3) i c))
              else coeff G2 (f * 3) i c).
  { intros i c Hi Hc. unfold G3.
    change (ptr_add (data_ptr G2) (f * 2)) with (G2, f * 2).
    rewrite coeff_gemm by first [lia | apply Tis_zero_one].
    repeat case_decide; try lia; reflexivity. }
  assert (HG4 : forall i c, i < b -> c < f * 3 ->
            coeff G4 (f * 3) i c =
              if decide (f * 2 <= c)
              then act (activation context) (coeff G3 (f * 3) i c)
              else coeff G3 (f * 3) i c).
  { intros i c Hi Hc. unfold G4.
    rewrite coeff_assign_slice by lia.
    unfold slice, read. cbn [tm_data tm_cols fst snd].
    rewrite Nat.add_0_r.
    repeat case_decide; try lia; [|reflexivity].
    now replace (c - f * 2 + f * 2) with c by lia. }
  split; [exact HlenG4|].
  split.
  { intros i c Hi Hc.
    rewrite HG4 by lia. case_decide; [lia|].
    rewrite HG3 by lia. case_decide; [lia|].
    rewrite HG2 by lia. case_decide; [reflexivity | lia]. }
  split.
  { intros i j Hi Hj. rewrite HR' by lia. f_equal.
    rewrite HG4 by lia. case_decide; [lia|].
    rewrite HG3 by lia. case_decide; [lia | reflexivity]. }
  split.
  { intros i j Hi Hj.
    rewrite HG4 by lia. case_decide; [|lia].
    rewrite HG3 by lia. case_decide; [|lia].
    replace (f * 2 + j - f * 2) with j by lia.
    rewrite HG2 by lia. case_decide; [lia | reflexivity]. }
  intros i j Hi Hj.
  rewrite coeff_assign_whole
    by (rewrite ?(has_shape_length _ _ _ HO); lia).
  unfold cwiseAdd, cwiseMul, cwiseSub, slice, read.
  cbn [tm_data tm_cols fst snd].
  now rewrite !Nat.add_0_r, (Nat.add_comm j (f * 2)).
Qed.

End ForwardFacts.

(** ** The forward kernel meets its specification *)

Section ForwardTheorems.

Context {T : Type} {ST : Scalar T} {AT : Activations T}.

Import GRUUnitKernel.


Section WithLaws.

(** Two laws of the element type's arithmetic: one is neutral for the
    product, and the sum commutes. *)
Hypothesis Tmul_1_l : forall x : T, Tmul Tone x = x.
Hypothesis Tadd_comm : forall x y : T, Tadd x y = Tadd y x.

Lemma unactivated_gate_update_reset (context : ExecutionContext T) b f :
  valid_forward context b f ->
  forall i c, i < b -> c < f * 2 ->
    coeff (unactivated_gate context) (f * 3) i c =
      update_reset_preact context f i c.
Proof.
  intros Hv i c Hi Hc.
  destruct (unactivated_gate_coeff context b f Hv) as [_ HU].
  rewrite HU by lia. case_decide; [|lia].
  rewrite !Tmul_1_l, Tadd_comm. reflexivity.
Qed.

Lemma unactivated_gate_candidate (context : ExecutionContext T) b f :
  valid_forward context b f ->
  forall i j, i < b -> j < f ->
    coeff (unactivated_gate context) (f * 3) i (f * 2 + j) =
      input_plus_bias context f i (f * 2 + j).
Proof.
  intros Hv i j Hi Hj.
  destruct (unactivated_gate_coeff context b f Hv) as [_ HU].
  rewrite HU by lia. case_decide; [lia | reflexivity].
Qed.

(** C2. For a valid call the kernel returns with the three column blocks of
    [Gate] holding the activated values: the gate activation of the update
    and of the reset pre-activation, and the candidate activation of the
    candidate pre-activation. *)
Theorem gate_slices_are_activated (context : ExecutionContext T) b f :
  valid_forward context b f ->
  exists out,
    Compute context = Ok out /\
    let gate := matrix (gate_out out) (f * 3) in
    forall i j, i < b -> j < f ->
      cols_from gate 0 i j =
        act (gate_activation context) (update_preact context f i j) /\
      cols_from gate f i j =
        act (gate_activation context) (reset_preact context f i j) /\
      cols_from gate (f * 2) i j =
        act (activation context) (candidate_preact context f i j).
Proof.
  intros Hv.
  destruct (forward_Compute_post context b f Hv)
    as (out & Hout & _ & Hur & Hr & Hc & _).
  exists out. split; [exact Hout|].
  intros gate i j Hi Hj. unfold gate, cols_from, matrix.
  split; [|split].
  - rewrite Hur by lia.
    now rewrite (unactivated_gate_update_reset context b f Hv) by lia.
  - rewrite Hur by lia.
    now rewrite (unactivated_gate_update_reset context b f Hv) by lia.
  - rewrite Hc by assumption.
    rewrite (unactivated_gate_candidate context b f Hv) by assumption.
    rewrite !Tmul_1_l, Tadd_comm.
    unfold candidate_preact. do 2 f_equal.
    unfold matmul. apply Tsum_ext. intros k Hk. f_equal.
    unfold matrix. rewrite Hr, Hur by lia.
    now rewrite (unactivated_gate_update_reset context b f Hv) by lia.
Qed.

(** C3, as the code has it. For a valid call, after the first [gemm] the
    columns [0 .. 2f) of [Gate] are [Input + Bias] plus [HiddenPrev @ W],
    where [W] is the row-major [f] x [2f] matrix made of the first
    [2 * f * f] elements of the weight buffer. *)
Theorem update_reset_term_accumulated (context : ExecutionContext T) b f :
  valid_forward context b f ->
  forall i c, i < b -> c < f * 2 ->
    matrix (unactivated_gate context) (f * 3) i c =
      Tadd (input_plus_bias context f i c)
           (matmul f (matrix (data (HiddenPrev context)) f)
              (weight_update_reset (data (Weight context)) f) i c).
Proof.
  intros Hv i c Hi Hc. unfold matrix at 1.
  now rewrite (unactivated_gate_update_reset context b f Hv) by lia.
Qed.

(** C4. For a valid call the kernel returns with [ResetHiddenPrev] the
    coefficientwise product of the activated reset gate, columns [f .. 2f)
    of [Gate], and [HiddenPrev]; the candidate's recurrent term is the
    product of that [ResetHiddenPrev] with the candidate weights. *)
Theorem reset_hidden_prev_is_gated (context : ExecutionContext T) b f :
  valid_forward context b f ->
  exists out,
    Compute context = Ok out /\
    let gate := matrix (gate_out out) (f * 3) in
    let r := cols_from gate f in
    let r_h_p := matrix (reset_hidden_prev_out out) f in
    forall i j, i < b -> j < f ->
      r i j = act (gate_activation context) (reset_preact context f i j) /\
      r_h_p i j = Tmul (r i j) (matrix (data (HiddenPrev context)) f i j) /\
      cols_from gate (f * 2) i j =
        act (activation context)
          (Tadd (input_plus_bias context f i (f * 2 + j))
                (matmul f r_h_p
                   (weight_candidate (data (Weight context)) f) i j)).
Proof.
  intros Hv.
  destruct (forward_Compute_post context b f Hv)
    as (out & Hout & _ & Hur & Hr & Hc & _).
  exists out. split; [exact Hout|].
  intros gate r r_h_p i j Hi Hj.
  unfold r, r_h_p, gate, cols_from, matrix.
  split; [|split].
  - rewrite Hur by lia.
    now rewrite (unactivated_gate_update_reset context b f Hv) by lia.
  - now apply Hr.
  - rewrite Hc by assumption.
    rewrite (unactivated_gate_candidate context b f Hv) by assumption.
    now rewrite !Tmul_1_l, Tadd_comm.
Qed.

End WithLaws.

End ForwardTheorems.

(** ** Facts about the backward kernel *)

Section BackwardFacts.

Context {T : Type} {ST : Scalar T} {AT : Activations T}.

Import GRUUnitGradKernel.

Lemma ActGradCompute_supported act_type (x y : Expr T) (dx : LValue T) dy :
  supported act_type ->
  ActGradCompute act_type x y dx dy =
    Ok (device_assign dx
          (fun i j => act_grad act_type (x i j) (y i j) (dy i j))).
Proof.
  intros H. unfold supported in H.
  assert (act_type = 0 \/ act_type = 1 \/ act_type = 2 \/ act_type = 3)%Z
    as [-> | [-> | [-> | ->]]] by lia; reflexivity.
Qed.

Lemma dim_mutable_data (t : Tensor T) (memory : list T) k :
  dim (mutable_data (dims t) memory) k = dim t k.
Proof. reflexivity. Qed.

Lemma data_mutable_data (d : list nat) (memory : list T) :
  data (mutable_data d memory) = memory.
Proof. reflexivity. Qed.

Lemma backward_Compute_post (context : ExecutionContext T) b f :
  valid_backward context b f ->
  exists out,
    Compute context = Ok out /\
    length (gate_grad_local out) = b * (f * 3) /\
    (forall i j, i < b -> j < f ->
       coeff (gate_grad_local out) (f * 3) i j =
         d_update_preact context f i j) /\
    (forall i j, i < b -> j < f ->
       coeff (gate_grad_local out) (f * 3) i (f + j) =
         d_reset_preact context f
           (matrix (reset_hidden_prev_grad_local out) f) i j) /\
    (forall i j, i < b -> j < f ->
       coeff (gate_grad_local out) (f * 3) i (f * 2 + j) =
         d_candidate_preact context f i j) /\
    (forall i j, i < b -> j < f ->
       coeff (hidden_prev_grad_out out) f i j =
         Tadd (Tmul Tone
                 (matmul (f * 2) (matrix (gate_grad_local out) (f * 3))
                    (transpose
                       (weight_update_reset (data (Weight context)) f))
                    i j))
              (Tmul Tone
                 (Tadd (Tmul (coeff (reset_hidden_prev_grad_local out) f i j)
                             (gate_r context f i j))
                       (Tmul (d_hidden context f i j)
                             (gate_u context f i j))))) /\
    (forall i c, i < b -> c < f * 3 ->
       coeff (input_grad_out out) (f * 3) i c =
         coeff (gate_grad_local out) (f * 3) i c) /\
    length (input_grad_out out) = b * (f * 3) /\
    (forall j, j < f * 3 ->
       nth j (bias_grad_out out) Tzero =
         Tsum b (fun i => coeff (gate_grad_local out) (f * 3) i j)).
Proof.
  intros (HI & HH & HW & HG & HR & HdH & HdI & HdHP & HdW & HdB
          & Hm1 & Hm2 & Hga & Ha).
  unfold Compute.
  repeat (rewrite ActGradCompute_supported by assumption;
          unfold mbind at 1, Result_bind at 1; cbn beta iota).
  eexists; split; [reflexivity|].
  cbn [gate_grad_local reset_hidden_prev_grad_local input_grad_out
       hidden_prev_grad_out bias_grad_out weight_grad_out].
  unfold view, EigenMatrix_From, view.
  rewrite !dim_mutable_data, !data_mutable_data.
  rewrite ?(has_shape_dim0 _ _ _ HI), ?(has_shape_dim1 _ _ _ HI),
    ?(has_shape_dim0 _ _ _ HH), ?(has_shape_dim1 _ _ _ HH),
    ?(has_shape_dim0 _ _ _ HG), ?(has_shape_dim1 _ _ _ HG),
    ?(has_shape_dim0 _ _ _ HR), ?(has_shape_dim1 _ _ _ HR),
    ?(has_shape_dim0 _ _ _ HdH), ?(has_shape_dim1 _ _ _ HdH),
    ?(has_shape_dim0 _ _ _ HdI), ?(has_shape_dim1 _ _ _ HdI),
    ?(has_shape_dim0 _ _ _ HdHP), ?(has_shape_dim1 _ _ _ HdHP),
    ?(has_shape_dim0 _ _ _ HdB), ?(has_shape_dim1 _ _ _ HdB).
  set (M := gate_grad_memory context) in *.
  set (D1 := device_assign (slice_of (mkMap M b (f * 3)) (0, 0) (b, f)) _).
  set (D2 := device_assign
               (slice_of (mkMap D1 b (f * 3)) (0, f * 2) (b, f)) _).
  set (DR := gemm false true b f f Tone _ (f * 3) _ f Tzero _ f).
  set (D3 := device_assign (slice_of (mkMap D2 b (f * 3)) (0, f) (b, f)) _).
  set (DH1 := device_assign
                (whole (mkMap (data (HiddenPrev_grad context)) b f)) _).
  assert (HlenD1 : length D1 = b * (f * 3))
    by (unfold D1; now rewrite length_device_assign).
  assert (HlenD2 : length D2 = b * (f * 3))
    by (unfold D2; now rewrite length_device_assign).
  assert (HlenD3 : length D3 = b * (f * 3))
    by (unfold D3; now rewrite length_device_assign).
  assert (HlenDH1 : length DH1 = b * f).
  { unfold DH1. rewrite length_device_assign.
    apply (has_shape_length _ _ _ HdHP). }
  assert (HD1 : forall i c, i < b -> c < f * 3 ->
            coeff D1 (f * 3) i c =
              if decide (c < f) then d_update_preact context f i c
              else coeff M (f * 3) i c).
  { intros i c Hi Hc. unfold D1.
    rewrite coeff_assign_slice by lia.
    repeat case_decide; try lia; [|reflexivity].
    unfold d_update_preact, gate_u, gate_c, h_prev, d_hidden, cols_from,
      matrix, cwiseMul, cwiseSub, slice, read.
    cbn [tm_data tm_cols fst snd].
    now rewrite !Nat.add_0_r, Nat.sub_0_r, (Nat.add_comm c (f * 2)). }
  assert (HD2 : forall i c, i < b -> c < f * 3 ->
            coeff D2 (f * 3) i c =
              if decide (f * 2 <= c)
              then d_candidate_preact context f i (c - f * 2)
              else coeff D1 (f * 3) i c).
  { intros i c Hi Hc. unfold D2.
    rewrite coeff_assign_slice by lia.
    repeat case_decide; try lia; [|reflexivity].
    unfold d_candidate_preact, gate_u, gate_c, d_hidden, cols_from,
      matrix, cwiseMul, cwiseSub, constant, slice, read.
    cbn [tm_data tm_cols fst snd].
    now rewrite !Nat.add_0_r, (Nat.add_comm (c - f * 2) (f * 2)). }
  assert (HD3 : forall i c, i < b -> c < f * 3 ->
            coeff D3 (f * 3) i c =
              if decide (f <= c < f * 2)
              then d_reset_preact context f (matrix DR f) i (c - f)
              else coeff D2 (f * 3) i c).
  { intros i c Hi Hc. unfold D3.
    rewrite coeff_assign_slice by lia.
    repeat case_decide; try lia; [|reflexivity].
    unfold d_reset_preact, gate_r, h_prev, cols_from,
      matrix, cwiseMul, slice, read.
    cbn [tm_data tm_cols fst snd].
    now rewrite !Nat.add_0_r, (Nat.add_comm (c - f) f). }
  split; [exact HlenD3|].
  split.
  { intros i j Hi Hj.
    rewrite HD3 by lia. case_decide; [lia|].
    rewrite HD2 by lia. case_decide; [lia|].
    rewrite HD1 by lia. case_decide; [reflexivity | lia]. }
  split.
  { intros i j Hi Hj.
    rewrite HD3 by lia. case_decide; [|lia].
    now replace (f + j - f) with j by lia. }
  split.
  { intros i j Hi Hj.
    rewrite HD3 by lia. case_decide; [lia|].
    rewrite HD2 by lia. case_decide; [|lia].
    now replace (f * 2 + j - f * 2) with j by lia. }
  split.
  { intros i j Hi Hj.
    change (data_ptr DH1) with (DH1, 0).
    rewrite coeff_gemm by first [lia | apply Tis_zero_one].
    case_decide; [|lia].
    rewrite Nat.sub_0_r. f_equal. f_equal.
    unfold DH1.
    rewrite coeff_assign_whole
      by (rewrite ?(has_shape_length _ _ _ HdHP); lia).
    unfold gate_r, gate_u, d_hidden, cols_from, matrix, cwiseAdd, cwiseMul,
      slice, read.
    cbn [tm_data tm_cols fst snd].
    now rewrite !Nat.add_0_r, (Nat.add_comm j f). }
  split.
  { intros i c Hi Hc.
    now rewrite coeff_assign_whole
      by (rewrite ?(has_shape_length _ _ _ HdI); lia). }
  split.
  { rewrite length_device_assign. apply (has_shape_length _ _ _ HdI). }
  intros j Hj. unfold device_assign_vec.
  cbn [tm_data tm_rows tm_cols].
  rewrite nth_lookup, lookup_write_row
    by (rewrite (has_shape_length _ _ _ HdB); lia).
  case_decide; [|lia].
  now rewrite Nat.sub_0_r.
Qed.

End BackwardFacts.

(** ** The backward kernel meets its specification *)

Section BackwardTheorems.

Context {T : Type} {ST : Scalar T} {AT : Activations T}.

Import GRUUnitGradKernel.

Lemma coeff_ext (l1 l2 : list T) rows ld :
  length l1 = rows * ld -> length l2 = rows * ld ->
  (forall i c, i < rows -> c < ld -> coeff l1 ld i c = coeff l2 ld i c) ->
  l1 = l2.
Proof.
  intros H1 H2 H.
  apply (nth_ext l1 l2 Tzero Tzero); [congruence|].
  intros n Hn. rewrite H1 in Hn.
  assert (ld <> 0) by (intros ->; lia).
  pose proof (Nat.div_mod_eq n ld) as Hdm.
  pose proof (Nat.mod_upper_bound n ld ltac:(assumption)) as Hc.
  assert (n / ld < rows) as Hi
    by (apply Nat.Div0.div_lt_upper_bound; lia).
  specialize (H (n / ld) (n mod ld) Hi Hc). unfold coeff in H.
  replace (n / ld * ld + n mod ld) with n in H by lia.
  exact H.
Qed.

(** C6. For a valid call the kernel returns, and the candidate block of the
    gate gradient, columns [2f .. 3f), is
    [act_grad(activation, c, c, dHidden * (1 - u))], with [u] and [c] the
    update-gate and candidate blocks of the forward pass's [Gate]. *)
Theorem candidate_gradient (context : ExecutionContext T) b f :
  valid_backward context b f ->
  exists out,
    Compute context = Ok out /\
    let d_g := matrix (gate_grad_local out) (f * 3) in
    let u := cols_from (matrix (data (Gate context)) (f * 3)) 0 in
    let c := cols_from (matrix (data (Gate context)) (f * 3)) (f * 2) in
    let d_h := matrix (data (Hidden_grad context)) f in
    forall i j, i < b -> j < f ->
      cols_from d_g (f * 2) i j =
        act_grad (activation context) (c i j) (c i j)
          (Tmul (d_h i j) (Tsub Tone (u i j))).
Proof.
  intros Hv.
  destruct (backward_Compute_post context b f Hv)
    as (out & Hout & _ & _ & _ & Hc & _).
  exists out. split; [exact Hout|].
  intros d_g u c d_h i j Hi Hj. exact (Hc i j Hi Hj).
Qed.


(** C10. Two calls that agree on everything but the values held by [Input],
    whose dimensions are the same, have the same outcome: the kernel reads
    the dimensions of [Input] only. *)
Theorem backward_reads_input_dims_only (c1 c2 : ExecutionContext T) :
  agree_up_to_input_values c1 c2 ->
  Compute c1 = Compute c2.
Proof.
  intros (Hd & HH & HW & HG & HR & HdH & Hga & Ha & HdI & HdHP & HdW & HdB
          & Hm1 & Hm2).
  unfold Compute, dim.
  now rewrite Hd, HH, HW, HG, HR, HdH, Hga, Ha, HdI, HdHP, HdW, HdB, Hm1, Hm2.
Qed.

Section WithLaws.

Hypothesis Tmul_1_l : forall x : T, Tmul Tone x = x.
Hypothesis Tadd_comm : forall x y : T, Tadd x y = Tadd y x.

(** C8, as the code has it. For a valid call the kernel returns; the reset
    block of the gate gradient is
    [act_grad(gate_activation, r, r, dResetHiddenPrev * HiddenPrev)], and
    the gradient of [HiddenPrev] is
    [dResetHiddenPrev * r + dHidden * u + dGate[:, 0:2f] @ W^T], where
    [dGate] is the gate gradient in its final state and [W] is the row-major
    [f] x [2f] matrix made of the first [2 * f * f] elements of the weight
    buffer. *)
Theorem hidden_prev_gradient (context : ExecutionContext T) b f :
  valid_backward context b f ->
  exists out,
    Compute context = Ok out /\
    let d_g := matrix (gate_grad_local out) (f * 3) in
    let d_r_h_p := matrix (reset_hidden_prev_grad_local out) f in
    let u := cols_from (matrix (data (Gate context)) (f * 3)) 0 in
    let r := cols_from (matrix (data (Gate context)) (f * 3)) f in
    let h_p := matrix (data (HiddenPrev context)) f in
    let d_h := matrix (data (Hidden_grad context)) f in
    forall i j, i < b -> j < f ->
      cols_from d_g f i j =
        act_grad (gate_activation context) (r i j) (r i j)
          (Tmul (d_r_h_p i j) (h_p i j)) /\
      matrix (hidden_prev_grad_out out) f i j =
        Tadd (Tadd (Tmul (d_r_h_p i j) (r i j)) (Tmul (d_h i j) (u i j)))
             (matmul (f * 2) d_g
                (transpose (weight_update_reset (data (Weight context)) f))
                i j).
Proof.
  intros Hv.
  destruct (backward_Compute_post context b f Hv)
    as (out & Hout & _ & _ & Hr & _ & Hh & _).
  exists out. split; [exact Hout|].
  intros d_g d_r_h_p u r h_p d_h i j Hi Hj. split.
  - exact (Hr i j Hi Hj).
  - unfold matrix at 1. rewrite Hh by assumption.
    now rewrite !Tmul_1_l, Tadd_comm.
Qed.

End WithLaws.

End BackwardTheorems.

(** ** Unsupported activation kinds *)

Section Unsupported.

Context {T : Type} {ST : Scalar T} {AT : Activations T}.

Lemma ActCompute_unsupported act_type (x : Expr T) (y : LValue T) :
  ~ supported act_type ->
  GRUUnitKernel.ActCompute act_type x y = Throw "unsupported activation type".
Proof.
  intros H. unfold supported in H. unfold GRUUnitKernel.ActCompute.
  unfold identity, sigmoid, tanh, relu.
  destruct (Z.eqb_spec act_type 0); [lia|].
  destruct (Z.eqb_spec act_type 1); [lia|].
  destruct (Z.eqb_spec act_type 2); [lia|].
  destruct (Z.eqb_spec act_type 3); [lia|].
  reflexivity.
Qed.

Lemma ActGradCompute_unsupported act_type (x y : Expr T) (dx : LValue T) dy :
  ~ supported act_type ->
  GRUUnitGradKernel.ActGradCompute act_type x y dx dy =
    Throw "unsupported activation type".
Proof.
  intros H. unfold supported in H. unfold GRUUnitGradKernel.ActGradCompute.
  unfold identity, sigmoid, tanh, relu.
  destruct (Z.eqb_spec act_type 0); [lia|].
  destruct (Z.eqb_spec act_type 1); [lia|].
  destruct (Z.eqb_spec act_type 2); [lia|].
  destruct (Z.eqb_spec act_type 3); [lia|].
  reflexivity.
Qed.

Lemma supported_dec act_type : {supported act_type} + {~ supported act_type}.
Proof.
  unfold supported.
  destruct (Z_le_dec 0 act_type), (Z_le_dec act_type 3);
    (left; lia) || (right; lia).
Qed.

(** C5. When one of the two activation attributes is outside
    [{0, 1, 2, 3}], the forward kernel and the backward kernel both throw
    "unsupported activation type" instead of returning outputs. *)
Theorem unsupported_activation_is_fatal
    (forward : GRUUnitKernel.ExecutionContext T)
    (backward : GRUUnitGradKernel.ExecutionContext T) :
  (~ supported (GRUUnitKernel.gate_activation forward) \/
   ~ supported (GRUUnitKernel.activation forward) ->
   GRUUnitKernel.Compute forward = Throw "unsupported activation type") /\
  (~ supported (GRUUnitGradKernel.gate_activation backward) \/
   ~ supported (GRUUnitGradKernel.activation backward) ->
   GRUUnitGradKernel.Compute backward = Throw "unsupported activation type").
Proof.
  split; intros H.
  - unfold GRUUnitKernel.Compute.
    destruct (supported_dec (GRUUnitKernel.gate_activation forward))
      as [Hga|Hga].
    + destruct H as [H|H]; [contradiction|].
      do 2 (rewrite ActCompute_supported by assumption;
            unfold mbind at 1, Result_bind at 1; cbn beta iota).
      now rewrite ActCompute_unsupported by assumption.
    + now rewrite ActCompute_unsupported by assumption.
  - unfold GRUUnitGradKernel.Compute.
    destruct (supported_dec (GRUUnitGradKernel.gate_activation backward))
      as [Hga|Hga].
    + destruct H as [H|H]; [contradiction|].
      rewrite ActGradCompute_supported by assumption.
      unfold mbind at 1, Result_bind at 1; cbn beta iota.
      now rewrite ActGradCompute_unsupported by assumption.
    + now rewrite ActGradCompute_unsupported by assumption.
Qed.

End Unsupported.

(** ** The theorems at the concrete calls *)

Ltac valid_call :=
  unfold valid_forward, valid_backward, has_shape, supported;
  cbn; unfold identity, sigmoid, tanh, relu;
  repeat split; (reflexivity || lia).


Lemma gate_slices_are_activated_witness :
  valid_forward example_forward 2 2 /\
  exists out,
    GRUUnitKernel.Compute example_forward = Ok out /\
    forall i j, i < 2 -> j < 2 ->
      cols_from (matrix (GRUUnitKernel.gate_out out) 6) 0 i j =
        act relu (update_preact example_forward 2 i j) /\
      cols_from (matrix (GRUUnitKernel.gate_out out) 6) 2 i j =
        act relu (reset_preact example_forward 2 i j) /\
      cols_from (matrix (GRUUnitKernel.gate_out out) 6) 4 i j =
        act identity (candidate_preact example_forward 2 i j).
Proof.
  split; [valid_call|].
  apply (@gate_slices_are_activated Z Z_Scalar Z_Activations Z.mul_1_l Z.add_comm example_forward 2 2).
  valid_call.
Defined.

Lemma update_reset_term_accumulated_witness :
  valid_forward example_forward 2 2 /\
  forall i c, i < 2 -> c < 4 ->
    matrix (GRUUnitKernel.unactivated_gate example_forward) 6 i c =
      Tadd (input_plus_bias example_forward 2 i c)
           (matmul 2 (matrix [0; 1; 2; -1]%Z 2)
              (weight_update_reset
                 [0; 1; 2; 3; 4; 5; 6; 7; 8; 9; 10; 11]%Z 2) i c).
Proof.
  split; [valid_call|].
  apply (@update_reset_term_accumulated Z Z_Scalar Z.mul_1_l Z.add_comm
           example_forward 2 2).
  valid_call.
Defined.

(** C3, as stated, fails on [example_forward]: at row 0, column 0 the kernel
    accumulates [HiddenPrev[0, 1] * Weight.data[4]], the specification's
    column reading [HiddenPrev[0, 1] * Weight.data[6]]. *)
Lemma update_reset_term_not_weight_columns :
  valid_forward example_forward 2 2 /\
  ~ update_reset_term_as_stated example_forward 2 2.
Proof.
  split; [valid_call|].
  intros H. specialize (H 0 0 ltac:(lia) ltac:(lia)).
  vm_compute in H. discriminate H.
Qed.

Lemma reset_hidden_prev_is_gated_witness :
  valid_forward example_forward 2 2 /\
  exists out,
    GRUUnitKernel.Compute example_forward = Ok out /\
    forall i j, i < 2 -> j < 2 ->
      cols_from (matrix (GRUUnitKernel.gate_out out) 6) 2 i j =
        act relu (reset_preact example_forward 2 i j) /\
      matrix (GRUUnitKernel.reset_hidden_prev_out out) 2 i j =
        Tmul (cols_from (matrix (GRUUnitKernel.gate_out out) 6) 2 i j)
             (matrix [0; 1; 2; -1]%Z 2 i j) /\
      cols_from (matrix (GRUUnitKernel.gate_out out) 6) 4 i j =
        act identity
          (Tadd (input_plus_bias example_forward 2 i (4 + j))
                (matmul 2 (matrix (GRUUnitKernel.reset_hidden_prev_out out) 2)
                   (weight_candidate
                      [0; 1; 2; 3; 4; 5; 6; 7; 8; 9; 10; 11]%Z 2) i j)).
Proof.
  split; [valid_call|].
  apply (@reset_hidden_prev_is_gated Z Z_Scalar Z_Activations Z.mul_1_l Z.add_comm example_forward 2 2).
  valid_call.
Defined.

Lemma unsupported_activation_is_fatal_witness :
  GRUUnitKernel.Compute example_forward_unsupported =
    Throw "unsupported activation type" /\
  GRUUnitGradKernel.Compute example_backward_unsupported =
    Throw "unsupported activation type".
Proof.
  destruct (unsupported_activation_is_fatal
              example_forward_unsupported example_backward_unsupported)
    as [Hf Hb].
  split.
  - apply Hf. right. unfold supported. cbn. lia.
  - apply Hb. left. unfold supported. cbn. lia.
Defined.

Lemma candidate_gradient_witness :
  valid_backward example_backward 2 2 /\
  exists out,
    GRUUnitGradKernel.Compute example_backward = Ok out /\
    forall i j, i < 2 -> j < 2 ->
      cols_from (matrix (GRUUnitGradKernel.gate_grad_local out) 6) 4 i j =
        act_grad identity
          (gate_c example_backward 2 i j) (gate_c example_backward 2 i j)
          (Tmul (d_hidden example_backward 2 i j)
                (Tsub Tone (gate_u example_backward 2 i j))).
Proof.
  split; [valid_call|].
  apply (candidate_gradient example_backward 2 2). valid_call.
Defined.

Lemma hidden_prev_gradient_witness :
  valid_backward example_backward 2 2 /\
  exists out,
    GRUUnitGradKernel.Compute example_backward = Ok out /\
    forall i j, i < 2 -> j < 2 ->
      cols_from (matrix (GRUUnitGradKernel.gate_grad_local out) 6) 2 i j =
        act_grad relu
          (gate_r example_backward 2 i j) (gate_r example_backward 2 i j)
          (Tmul (matrix (GRUUnitGradKernel.reset_hidden_prev_grad_local out)
                   2 i j)
                (h_prev example_backward 2 i j)) /\
      matrix (GRUUnitGradKernel.hidden_prev_grad_out out) 2 i j =
        Tadd (Tadd (Tmul (matrix
                            (GRUUnitGradKernel.reset_hidden_prev_grad_local out)
                            2 i j)
                         (gate_r example_backward 2 i j))
                   (Tmul (d_hidden example_backward 2 i j)
                         (gate_u example_backward 2 i j)))
             (matmul 4 (matrix (GRUUnitGradKernel.gate_grad_local out) 6)
                (transpose
                   (weight_update_reset
                      [0; 1; 2; 3; 4; 5; 6; 7; 8; 9; 10; 11]%Z 2))
                i j).
Proof.
  split; [valid_call|].
  apply (@hidden_prev_gradient Z Z_Scalar Z_Activations Z.mul_1_l Z.add_comm example_backward 2 2).
  valid_call.
Defined.

(** C8, as stated, fails on [example_backward]: at row 0, column 1 the
    kernel multiplies the gate gradient with [Weight.data[4 .. 7]], the
    specification's column reading with [Weight.data[6 .. 9]]. *)
Lemma hidden_prev_gradient_not_weight_columns :
  valid_backward example_backward 2 2 /\
  exists out,
    GRUUnitGradKernel.Compute example_backward = Ok out /\
    ~ hidden_prev_grad_as_stated example_backward 2 2 out.
Proof.
  split; [valid_call|].
  eexists. split; [vm_compute; reflexivity|].
  intros H. specialize (H 0 1 ltac:(lia) ltac:(lia)).
  vm_compute in H. discriminate H.
Qed.


Lemma backward_reads_input_dims_only_witness :
  agree_up_to_input_values example_backward example_backward_other_input /\
  GRUUnitGradKernel.Compute example_backward =
    GRUUnitGradKernel.Compute example_backward_other_input.
Proof.
  split; [repeat split|].
  apply backward_reads_input_dims_only. repeat split.
Defined.

(** ** Further properties of the forward kernel *)

Section ForwardMore.

Context {T : Type} {ST : Scalar T} {AT : Activations T}.

Import GRUUnitKernel.

Lemma forward_Compute_lengths (context : ExecutionContext T) b f out :
  valid_forward context b f ->
  Compute context = Ok out ->
  length (gate_out out) = b * (f * 3) /\
  length (reset_hidden_prev_out out) = b * f /\
  length (hidden_out out) = b * f.
Proof.
  intros Hv.
  destruct (unactivated_gate_coeff context b f Hv) as [HlenU _].
  destruct Hv as (HI & HH & HW & HB & HG & HR & HO & Hga & Ha).
  unfold Compute.
  repeat (rewrite ActCompute_supported by assumption;
          unfold mbind at 1, Result_bind at 1; cbn beta iota).
  intros [= <-]. cbn [gate_out reset_hidden_prev_out hidden_out].
  rewrite !length_device_assign.
  unfold slice_of, whole, EigenMatrix_From, view.
  cbn [lv_map tm_data].
  rewrite length_gemm. cbn [ptr_add data_ptr fst].
  rewrite !length_device_assign. cbn [lv_map tm_data].
  rewrite (has_shape_length _ _ _ HR), (has_shape_length _ _ _ HO).
  rewrite !length_device_assign. cbn [lv_map tm_data].
  auto.
Qed.

Lemma forward_row_determined (c1 c2 : ExecutionContext T) b1 b2 f i out1 out2 :
  valid_forward c1 b1 f -> valid_forward c2 b2 f -> i < b1 -> i < b2 ->
  gate_activation c1 = gate_activation c2 ->
  activation c1 = activation c2 ->
  same_row (input_plus_bias c1 f) (input_plus_bias c2 f) i (f * 3) ->
  same_row (matrix (data (HiddenPrev c1)) f)
           (matrix (data (HiddenPrev c2)) f) i f ->
  (forall k, k < f ->
     same_row (weight_update_reset (data (Weight c1)) f)
              (weight_update_reset (data (Weight c2)) f) k (f * 2)) ->
  Compute c1 = Ok out1 -> Compute c2 = Ok out2 ->
  same_row (matrix (gate_out out1) (f * 3))
           (matrix (gate_out out2) (f * 3)) i (f * 2) /\
  same_row (matrix (reset_hidden_prev_out out1) f)
           (matrix (reset_hidden_prev_out out2) f) i f /\
  ((forall k, k < f ->
      same_row (weight_candidate (data (Weight c1)) f)
               (weight_candidate (data (Weight c2)) f) k f) ->
   same_row (matrix (gate_out out1) (f * 3))
            (matrix (gate_out out2) (f * 3)) i (f * 3) /\
   same_row (matrix (hidden_out out1) f)
            (matrix (hidden_out out2) f) i f).
Proof.
  intros Hv1 Hv2 Hi1 Hi2 Hga Ha Hx Hh Hw E1 E2.
  destruct (unactivated_gate_coeff c1 b1 f Hv1) as [_ HU1].
  destruct (unactivated_gate_coeff c2 b2 f Hv2) as [_ HU2].
  destruct (forward_Compute_post c1 b1 f Hv1)
    as (o1 & E1' & _ & Hur1 & Hr1 & Hc1 & Hh1).
  destruct (forward_Compute_post c2 b2 f Hv2)
    as (o2 & E2' & _ & Hur2 & Hr2 & Hc2 & Hh2).
  assert (o1 = out1) by congruence. subst o1.
  assert (o2 = out2) by congruence. subst o2.
  assert (Hur : same_row (matrix (gate_out out1) (f * 3))
                  (matrix (gate_out out2) (f * 3)) i (f * 2)).
  { intros c Hc. unfold matrix.
    rewrite Hur1, Hur2, HU1, HU2 by lia.
    case_decide; [|lia].
    rewrite Hga, (Hx c) by lia. do 3 f_equal.
    unfold matmul. apply Tsum_ext. intros k Hk.
    now rewrite (Hh k Hk), (Hw k Hk c Hc). }
  assert (Hr : same_row (matrix (reset_hidden_prev_out out1) f)
                 (matrix (reset_hidden_prev_out out2) f) i f).
  { intros j Hj. unfold matrix.
    rewrite Hr1, Hr2 by assumption.
    fold (matrix (gate_out out1) (f * 3)) (matrix (gate_out out2) (f * 3)).
    rewrite (Hur (f + j)) by lia.
    fold (matrix (data (HiddenPrev c1)) f) (matrix (data (HiddenPrev c2)) f).
    now rewrite (Hh j Hj). }
  split; [exact Hur|]. split; [exact Hr|].
  intros Hwc.
  assert (Hcand : forall j, j < f ->
            coeff (gate_out out1) (f * 3) i (f * 2 + j) =
            coeff (gate_out out2) (f * 3) i (f * 2 + j)).
  { intros j Hj.
    rewrite Hc1, Hc2, HU1, HU2 by lia.
    case_decide; [lia|].
    rewrite Ha, (Hx (f * 2 + j)) by lia. do 3 f_equal.
    unfold matmul. apply Tsum_ext. intros k Hk.
    now rewrite (Hr k Hk), (Hwc k Hk j Hj). }
  split.
  - intros c Hc. destruct (decide (c < f * 2)) as [Hlt|Hge].
    + now apply Hur.
    + unfold matrix. replace c with (f * 2 + (c - f * 2)) by lia.
      apply Hcand. lia.
  - intros j Hj. unfold matrix.
    rewrite Hh1, Hh2 by assumption.
    rewrite (Hcand j Hj).
    fold (matrix (gate_out out1) (f * 3)) (matrix (gate_out out2) (f * 3)).
    rewrite (Hur j) by lia.
    fold (matrix (data (HiddenPrev c1)) f) (matrix (data (HiddenPrev c2)) f).
    now rewrite (Hh j Hj).
Qed.

Lemma input_plus_bias_same_row (c1 c2 : ExecutionContext T) f i :
  Bias c1 = Bias c2 ->
  same_row (matrix (data (Input c1)) (f * 3))
           (matrix (data (Input c2)) (f * 3)) i (f * 3) ->
  same_row (input_plus_bias c1 f) (input_plus_bias c2 f) i (f * 3).
Proof.
  intros Hb Hx c Hc. unfold input_plus_bias.
  now rewrite Hb, (Hx c Hc).
Qed.

(** X2. Two valid calls with the same inputs and attributes return the same
    three buffers, whatever the output tensors held when the kernel was
    entered: every element of [Gate], [ResetHiddenPrev] and [Hidden] is
    written, and none is read before it is written. *)
Theorem forward_overwrites_outputs (c1 c2 : ExecutionContext T) b f :
  valid_forward c1 b f -> valid_forward c2 b f ->
  same_forward_inputs c1 c2 ->
  Compute c1 = Compute c2.
Proof.
  intros Hv1 Hv2 (HI & HH & HW & HB & Hga & Ha).
  destruct (forward_Compute_post c1 b f Hv1) as (out1 & E1 & _).
  destruct (forward_Compute_post c2 b f Hv2) as (out2 & E2 & _).
  destruct (forward_Compute_lengths c1 b f out1 Hv1 E1) as (Lg1 & Lr1 & Lh1).
  destruct (forward_Compute_lengths c2 b f out2 Hv2 E2) as (Lg2 & Lr2 & Lh2).
  assert (Hrows : forall i, i < b ->
            same_row (matrix (gate_out out1) (f * 3))
                     (matrix (gate_out out2) (f * 3)) i (f * 3) /\
            same_row (matrix (reset_hidden_prev_out out1) f)
                     (matrix (reset_hidden_prev_out out2) f) i f /\
            same_row (matrix (hidden_out out1) f)
                     (matrix (hidden_out out2) f) i f).
  { intros i Hi.
    destruct (forward_row_determined c1 c2 b b f i out1 out2)
      as (_ & Hr & Hrest); try assumption.
    - apply input_plus_bias_same_row; [assumption|].
      intros c Hc. now rewrite HI.
    - intros c Hc. now rewrite HH.
    - intros k Hk c Hc. now rewrite HW.
    - destruct Hrest as [Hg Hh]; [intros k Hk j Hj; now rewrite HW|].
      auto. }
  rewrite E1, E2. f_equal.
  destruct out1 as [g1 r1 h1], out2 as [g2 r2 h2].
  cbn [gate_out reset_hidden_prev_out hidden_out] in *.
  f_equal.
  - apply (coeff_ext _ _ b (f * 3)); [assumption..|].
    intros i c Hi Hc. now apply (Hrows i Hi).
  - apply (coeff_ext _ _ b f); [assumption..|].
    intros i c Hi Hc. now apply (Hrows i Hi).
  - apply (coeff_ext _ _ b f); [assumption..|].
    intros i c Hi Hc. now apply (Hrows i Hi).
Qed.

(** X3. The rows of a batch do not interact. When two valid calls (their
    batch sizes may differ) have the same weights, bias and attributes and
    the same row [i] of [Input] and of [HiddenPrev], they return the same
    row [i] of [Gate], of [ResetHiddenPrev] and of [Hidden]. *)
Theorem forward_rows_independent (c1 c2 : ExecutionContext T) b1 b2 f i :
  valid_forward c1 b1 f -> valid_forward c2 b2 f -> i < b1 -> i < b2 ->
  Weight c1 = Weight c2 -> Bias c1 = Bias c2 ->
  gate_activation c1 = gate_activation c2 ->
  activation c1 = activation c2 ->
  same_row (matrix (data (Input c1)) (f * 3))
           (matrix (data (Input c2)) (f * 3)) i (f * 3) ->
  same_row (matrix (data (HiddenPrev c1)) f)
           (matrix (data (HiddenPrev c2)) f) i f ->
  exists out1 out2,
    Compute c1 = Ok out1 /\ Compute c2 = Ok out2 /\
    same_row (matrix (gate_out out1) (f * 3))
             (matrix (gate_out out2) (f * 3)) i (f * 3) /\
    same_row (matrix (reset_hidden_prev_out out1) f)
             (matrix (reset_hidden_prev_out out2) f) i f /\
    same_row (matrix (hidden_out out1) f)
             (matrix (hidden_out out2) f) i f.
Proof.
  intros Hv1 Hv2 Hi1 Hi2 HW HB Hga Ha Hx Hh.
  destruct (forward_Compute_post c1 b1 f Hv1) as (out1 & E1 & _).
  destruct (forward_Compute_post c2 b2 f Hv2) as (out2 & E2 & _).
  exists out1, out2. split; [exact E1|]. split; [exact E2|].
  destruct (forward_row_determined c1 c2 b1 b2 f i out1 out2)
    as (_ & Hr & Hrest); try assumption.
  - now apply input_plus_bias_same_row.
  - intros k Hk c Hc. now rewrite HW.
  - destruct Hrest as [Hg Hhid]; [intros k Hk j Hj; now rewrite HW|].
    auto.
Qed.

(** X4. The update gate, the reset gate and [ResetHiddenPrev] depend on the
    weight buffer through its first [2 * f * f] elements only: two valid
    calls that differ in nothing but the later elements of the weight buffer
    return the same columns [0 .. 2f) of [Gate] and the same
    [ResetHiddenPrev]. *)
Theorem update_reset_ignore_candidate_weights
    (c1 c2 : ExecutionContext T) b f :
  valid_forward c1 b f -> valid_forward c2 b f ->
  Input c1 = Input c2 -> HiddenPrev c1 = HiddenPrev c2 ->
  Bias c1 = Bias c2 ->
  gate_activation c1 = gate_activation c2 ->
  activation c1 = activation c2 ->
  take (f * f * 2) (data (Weight c1)) = take (f * f * 2) (data (Weight c2)) ->
  exists out1 out2,
    Compute c1 = Ok out1 /\ Compute c2 = Ok out2 /\
    forall i, i < b ->
      same_row (matrix (gate_out out1) (f * 3))
               (matrix (gate_out out2) (f * 3)) i (f * 2) /\
      same_row (matrix (reset_hidden_prev_out out1) f)
               (matrix (reset_hidden_prev_out out2) f) i f.
Proof.
  intros Hv1 Hv2 HI HH HB Hga Ha HW.
  destruct (forward_Compute_post c1 b f Hv1) as (out1 & E1 & _).
  destruct (forward_Compute_post c2 b f Hv2) as (out2 & E2 & _).
  exists out1, out2. split; [exact E1|]. split; [exact E2|].
  intros i Hi.
  destruct (forward_row_determined c1 c2 b b f i out1 out2)
    as (Hur & Hr & _); try assumption.
  - apply input_plus_bias_same_row; [assumption|].
    intros c Hc. now rewrite HI.
  - intros c Hc. now rewrite HH.
  - intros k Hk c Hc. unfold weight_update_reset.
    assert (Hlt : k * (f * 2) + c < f * f * 2) by nia.
    rewrite !nth_lookup.
    rewrite <- (lookup_take_lt (data (Weight c1)) _ _ Hlt).
    rewrite <- (lookup_take_lt (data (Weight c2)) _ _ Hlt).
    now rewrite HW.
  - auto.
Qed.

(** X5. An activation applied in place to the columns [off .. off + n) of
    the first [m] rows of a matrix, as the kernel applies it to each gate:
    for a supported kind [ActCompute] returns a buffer of the same length in
    which every coefficient of that block is the activation of the old one
    and every other coefficient is unchanged. *)
Theorem ActCompute_in_place act_type (buf : list T) rows ld off n m :
  supported act_type ->
  off + n <= ld -> m * ld <= length buf ->
  let g := mkMap buf rows ld in
  exists buf',
    ActCompute act_type (slice (read g) (0, off))
      (slice_of g (0, off) (m, n)) = Ok buf' /\
    length buf' = length buf /\
    forall i c, c < ld ->
      coeff buf' ld i c =
        if decide (i < m /\ off <= c < off + n)
        then act act_type (coeff buf ld i c)
        else coeff buf ld i c.
Proof.
  intros Hs Hn Hlen g.
  rewrite ActCompute_supported by assumption.
  eexists. split; [reflexivity|].
  split; [apply length_device_assign|].
  intros i c Hc.
  unfold device_assign, slice_of, g.
  cbn [lv_map lv_offsets lv_extents tm_data tm_cols fst snd].
  change (0 * ld + off) with off.
  unfold coeff at 1.
  rewrite nth_lookup, lookup_write_rows by lia.
  case_decide as Hin.
  - cbn [default from_option]. unfold slice, read.
    cbn [tm_data tm_cols fst snd].
    rewrite Nat.add_0_r. now replace (c - off + off) with c by lia.
  - now rewrite <- nth_lookup.
Qed.

End ForwardMore.

(** ** Blocks of rows past an offset *)

Section BlockFacts.

Context {T : Type} {ST : Scalar T}.

Implicit Types (buf : list T) (e : Expr T).

Lemma lookup_write_rows_block buf base ld e n m i c :
  n <= ld -> base + m * ld <= length buf -> i < m -> c < n ->
  write_rows buf base ld e n m !! (base + i * ld + c) = Some (e i c).
Proof.
  intros Hn. revert i. induction m as [|m IH]; intros i Hlen Hi Hc;
    [lia|]. cbn [write_rows].
  rewrite Nat.mul_succ_l in Hlen.
  rewrite lookup_write_row by (rewrite length_write_rows; lia).
  destruct (decide (i = m)) as [->|Hne].
  - case_decide; [|lia]. f_equal. f_equal. lia.
  - assert (i < m) as Hlt by lia.
    assert (i * ld + ld <= m * ld) by nia.
    case_decide; [lia|]. apply IH; lia.
Qed.

Lemma lookup_write_rows_outside buf base ld e n m k :
  n <= ld -> base + m * ld <= length buf ->
  k < base \/ base + m * ld <= k ->
  write_rows buf base ld e n m !! k = buf !! k.
Proof.
  intros Hn. induction m as [|m IH]; intros Hlen Hk; [reflexivity|].
  cbn [write_rows]. rewrite Nat.mul_succ_l in Hlen, Hk.
  rewrite lookup_write_row by (rewrite length_write_rows; lia).
  case_decide; [lia|]. apply IH; lia.
Qed.

End BlockFacts.

(** ** Further facts about the backward kernel *)

Section BackwardMoreFacts.

Context {T : Type} {ST : Scalar T} {AT : Activations T}.

Import GRUUnitGradKernel.

Lemma backward_Compute_post_weights (context : ExecutionContext T) b f :
  valid_backward context b f ->
  exists out,
    Compute context = Ok out /\
    (length (input_grad_out out) = b * (f * 3) /\
     length (hidden_prev_grad_out out) = b * f /\
     length (weight_grad_out out) = f * (f * 3) /\
     length (bias_grad_out out) = 1 * (f * 3) /\
     length (reset_hidden_prev_grad_local out) = b * f) /\
    (forall i j, i < b -> j < f ->
       coeff (reset_hidden_prev_grad_local out) f i j =
         Tmul Tone
           (matmul f
              (cols_from (matrix (gate_grad_local out) (f * 3)) (f * 2))
              (transpose (weight_candidate (data (Weight context)) f))
              i j)) /\
    (forall k j, k < f -> j < f * 2 ->
       weight_update_reset (weight_grad_out out) f k j =
         Tmul Tone
           (matmul b
              (transpose (matrix (data (HiddenPrev context)) f))
              (matrix (gate_grad_local out) (f * 3)) k j)) /\
    (forall k j, k < f -> j < f ->
       weight_candidate (weight_grad_out out) f k j =
         Tmul Tone
           (matmul b
              (transpose (matrix (data (ResetHiddenPrev context)) f))
              (cols_from (matrix (gate_grad_local out) (f * 3)) (f * 2))
              k j)).
Proof.
  intros (HI & HH & HW & HG & HR & HdH & HdI & HdHP & HdW & HdB
          & Hm1 & Hm2 & Hga & Ha).
  unfold Compute.
  repeat (rewrite ActGradCompute_supported by assumption;
          unfold mbind at 1, Result_bind at 1; cbn beta iota).
  eexists; split; [reflexivity|].
  cbn [gate_grad_local reset_hidden_prev_grad_local input_grad_out
       hidden_prev_grad_out bias_grad_out weight_grad_out].
  unfold view, EigenMatrix_From, view.
  rewrite !dim_mutable_data, !data_mutable_data.
  rewrite ?(has_shape_dim0 _ _ _ HI), ?(has_shape_dim1 _ _ _ HI),
    ?(has_shape_dim0 _ _ _ HH), ?(has_shape_dim1 _ _ _ HH),
    ?(has_shape_dim0 _ _ _ HG), ?(has_shape_dim1 _ _ _ HG),
    ?(has_shape_dim0 _ _ _ HR), ?(has_shape_dim1 _ _ _ HR),
    ?(has_shape_dim0 _ _ _ HdH), ?(has_shape_dim1 _ _ _ HdH),
    ?(has_shape_dim0 _ _ _ HdI), ?(has_shape_dim1 _ _ _ HdI),
    ?(has_shape_dim0 _ _ _ HdHP), ?(has_shape_dim1 _ _ _ HdHP),
    ?(has_shape_dim0 _ _ _ HdB), ?(has_shape_dim1 _ _ _ HdB).
  set (M := gate_grad_memory context) in *.
  set (D1 := device_assign (slice_of (mkMap M b (f * 3)) (0, 0) (b, f)) _).
  set (D2 := device_assign
               (slice_of (mkMap D1 b (f * 3)) (0, f * 2) (b, f)) _).
  set (DR := gemm false true b f f Tone _ (f * 3) _ f Tzero _ f).
  set (D3 := device_assign (slice_of (mkMap D2 b (f * 3)) (0, f) (b, f)) _).
  set (W1 := gemm true false f f b Tone _ f _ (f * 3) Tzero _ f).
  set (W2 := gemm true false f (f * 2) b Tone _ f _ (f * 3) Tzero _ (f * 2)).
  assert (HlenD1 : length D1 = b * (f * 3))
    by (unfold D1; now rewrite length_device_assign).
  assert (HlenD2 : length D2 = b * (f * 3))
    by (unfold D2; now rewrite length_device_assign).
  assert (HlenD3 : length D3 = b * (f * 3))
    by (unfold D3; now rewrite length_device_assign).
  assert (HlenW1 : length W1 = f * (f * 3)).
  { unfold W1. rewrite length_gemm. apply (has_shape_length _ _ _ HdW). }
  assert (HD3c : forall i j, i < b -> j < f ->
            coeff D3 (f * 3) i (f * 2 + j) = coeff D2 (f * 3) i (f * 2 + j)).
  { intros i j Hi Hj. unfold D3.
    rewrite coeff_assign_slice by lia. case_decide; [lia | reflexivity]. }
  split.
  { rewrite !length_device_assign, !length_gemm.
    unfold device_assign_vec. rewrite length_write_row.
    cbn [lv_map tm_data whole fst data_ptr].
    rewrite !length_device_assign. cbn [lv_map tm_data whole].
    rewrite (has_shape_length _ _ _ HdI), (has_shape_length _ _ _ HdHP),
      (has_shape_length _ _ _ HdB).
    repeat split.
    - unfold W2. now rewrite length_gemm.
    - unfold DR. now rewrite length_gemm. }
  split.
  { intros i j Hi Hj. unfold DR.
    change (data_ptr (reset_hidden_prev_grad_memory context))
      with (reset_hidden_prev_grad_memory context, 0).
    rewrite coeff_gemm_overwrite by first [lia | apply Tis_zero_zero].
    case_decide; [|lia].
    rewrite Nat.sub_0_r. f_equal.
    unfold matmul. apply Tsum_ext. intros k Hk.
    unfold cols_from, transpose, matrix, weight_candidate. f_equal.
    rewrite HD3c by lia.
    unfold deref, coeff. cbn [fst snd ptr_add data_ptr]. f_equal. lia. }
  split.
  { intros k j Hk Hj.
    unfold weight_update_reset, W2, gemm. cbn [fst snd data_ptr].
    rewrite Tis_zero_zero.
    rewrite nth_lookup, lookup_write_rows by lia.
    case_decide; [|lia].
    cbn [default from_option]. rewrite Nat.sub_0_r.
    reflexivity. }
  intros k j Hk Hj.
  unfold weight_candidate at 1.
  assert (Hge : 0 + f * (f * 2) <= f * f * 2 + (k * f + j)) by nia.
  unfold W2, gemm. cbn [fst snd data_ptr].
  rewrite nth_lookup, lookup_write_rows_outside by (rewrite ?HlenW1; lia || nia).
  unfold W1, gemm. cbn [fst snd data_ptr ptr_add].
  rewrite Tis_zero_zero.
  change (0 + f * f * 2) with (f * f * 2).
  rewrite (Nat.add_assoc (f * f * 2) (k * f) j).
  rewrite lookup_write_rows_block
    by (rewrite ?(has_shape_length _ _ _ HdW); lia || nia).
  cbn [default from_option id]. cbn beta. f_equal.
  unfold matmul. apply Tsum_ext. intros i Hi.
  unfold cols_from, transpose, matrix. f_equal.
  rewrite HD3c by lia.
  unfold deref, coeff. cbn [fst snd ptr_add data_ptr]. f_equal. lia.
Qed.

End BackwardMoreFacts.

(** ** Further properties of the backward kernel *)

Section BackwardMore.

Context {T : Type} {ST : Scalar T} {AT : Activations T}.

Import GRUUnitGradKernel.

(** X6. For a valid call the kernel returns, and the update-gate block of
    the gate gradient, columns [0 .. f), is
    [act_grad(gate_activation, u, u, dHidden * (HiddenPrev - c))]. *)
Theorem update_gate_gradient (context : ExecutionContext T) b f :
  valid_backward context b f ->
  exists out,
    Compute context = Ok out /\
    let d_g := matrix (gate_grad_local out) (f * 3) in
    let u := cols_from (matrix (data (Gate context)) (f * 3)) 0 in
    let c := cols_from (matrix (data (Gate context)) (f * 3)) (f * 2) in
    let h_p := matrix (data (HiddenPrev context)) f in
    let d_h := matrix (data (Hidden_grad context)) f in
    forall i j, i < b -> j < f ->
      cols_from d_g 0 i j =
        act_grad (gate_activation context) (u i j) (u i j)
          (Tmul (d_h i j) (Tsub (h_p i j) (c i j))).
Proof.
  intros Hv.
  destruct (backward_Compute_post context b f Hv)
    as (out & Hout & _ & Hu & _).
  exists out. split; [exact Hout|].
  intros d_g u c h_p d_h i j Hi Hj. exact (Hu i j Hi Hj).
Qed.

(** A row-major buffer of [f * 3f] elements is determined by its two parts,
    read as the kernels address the weights. *)
Lemma weight_layout_ext (w1 w2 : list T) f :
  length w1 = f * (f * 3) -> length w2 = f * (f * 3) ->
  (forall k j, k < f -> j < f * 2 ->
     weight_update_reset w1 f k j = weight_update_reset w2 f k j) ->
  (forall k j, k < f -> j < f ->
     weight_candidate w1 f k j = weight_candidate w2 f k j) ->
  w1 = w2.
Proof.
  intros L1 L2 Hur Hc.
  apply (nth_ext w1 w2 Tzero Tzero); [congruence|].
  intros n Hn. rewrite L1 in Hn.
  assert (f <> 0) by (intros ->; lia).
  destruct (decide (n < f * f * 2)) as [Hlt|Hge].
  - pose proof (Nat.div_mod_eq n (f * 2)) as Hdm.
    pose proof (Nat.mod_upper_bound n (f * 2) ltac:(lia)) as Hj.
    assert (n / (f * 2) < f) as Hk
      by (apply Nat.Div0.div_lt_upper_bound; lia).
    specialize (Hur _ _ Hk Hj). unfold weight_update_reset in Hur.
    replace (n / (f * 2) * (f * 2) + n mod (f * 2)) with n in Hur by lia.
    exact Hur.
  - set (m := n - f * f * 2).
    assert (m < f * f) as Hm by (unfold m; nia).
    pose proof (Nat.div_mod_eq m f) as Hdm.
    pose proof (Nat.mod_upper_bound m f ltac:(lia)) as Hj.
    assert (m / f < f) as Hk
      by (apply Nat.Div0.div_lt_upper_bound; lia).
    specialize (Hc _ _ Hk Hj). unfold weight_candidate in Hc.
    replace (f * f * 2 + (m / f * f + m mod f)) with n in Hc
      by (unfold m in *; lia).
    exact Hc.
Qed.

(** X10. Two valid calls with the same inputs and attributes (of [Input],
    the same dimensions) return the same four gradients, whatever the output
    tensors and the memory of the two local tensors held when the kernel was
    entered: no element of a gradient is left unwritten, and no
    uninitialised element flows into one. *)
Theorem backward_overwrites_outputs (c1 c2 : ExecutionContext T) b f :
  valid_backward c1 b f -> valid_backward c2 b f ->
  same_backward_inputs c1 c2 ->
  exists out1 out2,
    Compute c1 = Ok out1 /\ Compute c2 = Ok out2 /\
    gradients out1 = gradients out2.
Proof.
  intros Hv1 Hv2 (Hd & HH & HW & HG & HR & HdH & Hga & Ha).
  destruct (backward_Compute_post c1 b f Hv1)
    as (out1 & E1 & Lg1 & Hu1 & Hr1 & Hc1 & Hh1 & Hx1 & Lx1 & Hb1).
  destruct (backward_Compute_post c2 b f Hv2)
    as (out2 & E2 & Lg2 & Hu2 & Hr2 & Hc2 & Hh2 & Hx2 & Lx2 & Hb2).
  destruct (backward_Compute_post_weights c1 b f Hv1)
    as (o1 & E1' & (_ & Lh1 & Lw1 & Lb1 & _) & HDR1 & HWu1 & HWc1).
  assert (o1 = out1) by congruence. subst o1.
  destruct (backward_Compute_post_weights c2 b f Hv2)
    as (o2 & E2' & (_ & Lh2 & Lw2 & Lb2 & _) & HDR2 & HWu2 & HWc2).
  assert (o2 = out2) by congruence. subst o2.
  exists out1, out2. split; [exact E1|]. split; [exact E2|].
  assert (Hcand : forall i j, i < b -> j < f ->
            coeff (gate_grad_local out1) (f * 3) i (f * 2 + j) =
            coeff (gate_grad_local out2) (f * 3) i (f * 2 + j)).
  { intros i j Hi Hj. rewrite Hc1, Hc2 by assumption.
    unfold d_candidate_preact, gate_c, gate_u, d_hidden.
    now rewrite HG, HdH, Ha. }
  assert (HDR : forall i j, i < b -> j < f ->
            matrix (reset_hidden_prev_grad_local out1) f i j =
            matrix (reset_hidden_prev_grad_local out2) f i j).
  { intros i j Hi Hj. unfold matrix. rewrite HDR1, HDR2 by assumption.
    f_equal. unfold matmul. apply Tsum_ext. intros k Hk.
    unfold cols_from, transpose, matrix.
    now rewrite (Hcand i k Hi Hk), HW. }
  assert (HdG : gate_grad_local out1 = gate_grad_local out2).
  { apply (coeff_ext _ _ b (f * 3)); [assumption..|].
    intros i c Hi Hc.
    destruct (decide (c < f)) as [Hlt|Hge].
    - rewrite Hu1, Hu2 by assumption.
      unfold d_update_preact, gate_c, gate_u, h_prev, d_hidden.
      now rewrite HG, HH, HdH, Hga.
    - destruct (decide (c < f * 2)) as [Hlt2|Hge2].
      + replace c with (f + (c - f)) by lia.
        rewrite Hr1, Hr2 by lia.
        unfold d_reset_preact, gate_r, h_prev.
        now rewrite (HDR i (c - f)), HG, HH, Hga by lia.
      + replace c with (f * 2 + (c - f * 2)) by lia.
        apply Hcand; lia. }
  unfold gradients. f_equal; [f_equal; [f_equal|]|].
  - apply (coeff_ext _ _ b (f * 3)); [assumption..|].
    intros i c Hi Hc. now rewrite Hx1, Hx2, HdG by assumption.
  - apply (coeff_ext _ _ b f); [assumption..|].
    intros i j Hi Hj. rewrite Hh1, Hh2 by assumption.
    fold (matrix (reset_hidden_prev_grad_local out1) f)
         (matrix (reset_hidden_prev_grad_local out2) f).
    rewrite (HDR i j Hi Hj), HdG.
    unfold gate_r, gate_u, d_hidden.
    now rewrite HW, HG, HdH.
  - apply (weight_layout_ext _ _ f); [assumption..| |].
    + intros k j Hk Hj. rewrite HWu1, HWu2 by assumption.
      now rewrite HH, HdG.
    + intros k j Hk Hj. rewrite HWc1, HWc2 by assumption.
      now rewrite HR, HdG.
  - apply (nth_ext _ _ Tzero Tzero); [congruence|].
    intros n Hn. rewrite Lb1, Nat.mul_1_l in Hn.
    now rewrite Hb1, Hb2, HdG by assumption.
Qed.

(** X11. The rows of a batch do not interact in the gradients of [Input]
    and of [HiddenPrev]. When two valid calls (their batch sizes may differ)
    have the same weights and attributes and the same row [i] of [Gate], of
    [HiddenPrev] and of the gradient of [Hidden], they return the same row
    [i] of the gradient of [Input] and of the gradient of [HiddenPrev]. *)
Theorem backward_rows_independent (c1 c2 : ExecutionContext T) b1 b2 f i :
  valid_backward c1 b1 f -> valid_backward c2 b2 f -> i < b1 -> i < b2 ->
  Weight c1 = Weight c2 ->
  gate_activation c1 = gate_activation c2 ->
  activation c1 = activation c2 ->
  same_row (matrix (data (Gate c1)) (f * 3))
           (matrix (data (Gate c2)) (f * 3)) i (f * 3) ->
  same_row (matrix (data (HiddenPrev c1)) f)
           (matrix (data (HiddenPrev c2)) f) i f ->
  same_row (matrix (data (Hidden_grad c1)) f)
           (matrix (data (Hidden_grad c2)) f) i f ->
  exists out1 out2,
    Compute c1 = Ok out1 /\ Compute c2 = Ok out2 /\
    same_row (matrix (input_grad_out out1) (f * 3))
             (matrix (input_grad_out out2) (f * 3)) i (f * 3) /\
    same_row (matrix (hidden_prev_grad_out out1) f)
             (matrix (hidden_prev_grad_out out2) f) i f.
Proof.
  intros Hv1 Hv2 Hi1 Hi2 HW Hga Ha HG HH HdH.
  destruct (backward_Compute_post c1 b1 f Hv1)
    as (out1 & E1 & _ & Hu1 & Hr1 & Hc1 & Hh1 & Hx1 & _).
  destruct (backward_Compute_post c2 b2 f Hv2)
    as (out2 & E2 & _ & Hu2 & Hr2 & Hc2 & Hh2 & Hx2 & _).
  destruct (backward_Compute_post_weights c1 b1 f Hv1)
    as (o1 & E1' & _ & HDR1 & _).
  assert (o1 = out1) by congruence. subst o1.
  destruct (backward_Compute_post_weights c2 b2 f Hv2)
    as (o2 & E2' & _ & HDR2 & _).
  assert (o2 = out2) by congruence. subst o2.
  exists out1, out2. split; [exact E1|]. split; [exact E2|].
  assert (Hgu : forall j, j < f -> gate_u c1 f i j = gate_u c2 f i j)
    by (intros j Hj; unfold gate_u, cols_from; apply HG; lia).
  assert (Hgr : forall j, j < f -> gate_r c1 f i j = gate_r c2 f i j)
    by (intros j Hj; unfold gate_r, cols_from; apply HG; lia).
  assert (Hgc : forall j, j < f -> gate_c c1 f i j = gate_c c2 f i j)
    by (intros j Hj; unfold gate_c, cols_from; apply HG; lia).
  assert (Hcand : forall j, j < f ->
            coeff (gate_grad_local out1) (f * 3) i (f * 2 + j) =
            coeff (gate_grad_local out2) (f * 3) i (f * 2 + j)).
  { intros j Hj. rewrite Hc1, Hc2 by assumption.
    unfold d_candidate_preact, d_hidden.
    now rewrite (Hgc j Hj), (Hgu j Hj), (HdH j Hj), Ha. }
  assert (HDR : forall j, j < f ->
            matrix (reset_hidden_prev_grad_local out1) f i j =
            matrix (reset_hidden_prev_grad_local out2) f i j).
  { intros j Hj. unfold matrix. rewrite HDR1, HDR2 by assumption.
    f_equal. unfold matmul. apply Tsum_ext. intros k Hk.
    unfold cols_from, transpose, matrix.
    now rewrite (Hcand k Hk), HW. }
  assert (HdG : same_row (matrix (gate_grad_local out1) (f * 3))
                  (matrix (gate_grad_local out2) (f * 3)) i (f * 3)).
  { intros c Hc. unfold matrix.
    destruct (decide (c < f)) as [Hlt|Hge].
    - rewrite Hu1, Hu2 by assumption.
      unfold d_update_preact, h_prev, d_hidden.
      now rewrite (Hgc c Hlt), (Hgu c Hlt), (HdH c Hlt), (HH c Hlt), Hga.
    - destruct (decide (c < f * 2)) as [Hlt2|Hge2].
      + replace c with (f + (c - f)) by lia.
        rewrite Hr1, Hr2 by lia.
        unfold d_reset_preact, h_prev.
        now rewrite (HDR (c - f)), (Hgr (c - f)), (HH (c - f)), Hga by lia.
      + replace c with (f * 2 + (c - f * 2)) by lia.
        apply Hcand; lia. }
  split.
  - intros c Hc. unfold matrix. rewrite Hx1, Hx2 by assumption.
    now apply HdG.
  - intros j Hj. unfold matrix. rewrite Hh1, Hh2 by assumption.
    fold (matrix (reset_hidden_prev_grad_local out1) f)
         (matrix (reset_hidden_prev_grad_local out2) f).
    rewrite (HDR j Hj), (Hgr j Hj), (Hgu j Hj).
    unfold d_hidden. rewrite (HdH j Hj). do 2 f_equal.
    unfold matmul. apply Tsum_ext. intros k Hk.
    now rewrite (HdG k), HW by lia.
Qed.

Section WithOne.

(** One is neutral for the product of the element type ([alpha = 1] in
    every [gemm] of the kernel). *)
Hypothesis Tmul_1_l : forall x : T, Tmul Tone x = x.

(** C7. For a valid call the kernel returns; the gradient of [Input] has
    [batch * 3f] elements, it is the kernel's gate gradient itself, and in
    every one of its [3f] columns it holds the gate gradient of the call's
    inputs (update block, reset block, candidate block) with no further
    factor or term. *)
Theorem input_gradient_is_gate_gradient (context : ExecutionContext T) b f :
  valid_backward context b f ->
  exists out,
    Compute context = Ok out /\
    length (input_grad_out out) = b * (f * 3) /\
    input_grad_out out = gate_grad_local out /\
    forall i c, i < b -> c < f * 3 ->
      matrix (input_grad_out out) (f * 3) i c = gate_gradient context f i c.
Proof.
  intros Hv.
  destruct (backward_Compute_post context b f Hv)
    as (out & Hout & Hlen & Hu & Hr & Hc & _ & Hx & Hlenx & _).
  destruct (backward_Compute_post_weights context b f Hv)
    as (o & Hout' & _ & HDR & _).
  assert (o = out) by congruence. subst o.
  exists out. split; [exact Hout|]. split; [exact Hlenx|].
  split; [now apply (coeff_ext _ _ b (f * 3))|].
  intros i c Hi Hc3. unfold matrix, gate_gradient.
  rewrite Hx by assumption.
  destruct (Nat.ltb_spec c f) as [Hlt|Hge].
  - now apply Hu.
  - destruct (Nat.ltb_spec c (f * 2)) as [Hlt2|Hge2].
    + replace c with (f + (c - f)) at 1 by lia.
      rewrite Hr by lia.
      unfold d_reset_preact. do 2 f_equal.
      unfold matrix. rewrite HDR, Tmul_1_l by lia.
      unfold d_reset_hidden_prev, matmul. apply Tsum_ext. intros k Hk.
      unfold cols_from, matrix. now rewrite Hc by lia.
    + replace c with (f * 2 + (c - f * 2)) at 1 by lia.
      apply Hc; lia.
Qed.

(** X7. For a valid call the kernel returns, and the local gradient of
    [ResetHiddenPrev] is [dGate[:, 2f:3f] @ Wc^T], with [Wc] the row-major
    [f] x [f] matrix made of the last [f * f] elements of the weight buffer;
    nothing of the memory the local tensor was given remains in it: the
    [gemm] that fills it overwrites. *)
Theorem reset_hidden_prev_gradient (context : ExecutionContext T) b f :
  valid_backward context b f ->
  exists out,
    Compute context = Ok out /\
    forall i j, i < b -> j < f ->
      matrix (reset_hidden_prev_grad_local out) f i j =
        matmul f (cols_from (matrix (gate_grad_local out) (f * 3)) (f * 2))
          (transpose (weight_candidate (data (Weight context)) f)) i j.
Proof.
  intros Hv.
  destruct (backward_Compute_post_weights context b f Hv)
    as (out & Hout & _ & HDR & _).
  exists out. split; [exact Hout|].
  intros i j Hi Hj. unfold matrix at 1.
  now rewrite HDR, Tmul_1_l by assumption.
Qed.

(** X8. For a valid call the kernel returns, and the gradient of [Weight]
    has the layout of the weight buffer: its first [2 * f * f] elements are
    the row-major [f] x [2f] matrix [HiddenPrev^T @ dGate[:, 0:2f]], its last
    [f * f] elements the row-major [f] x [f] matrix
    [ResetHiddenPrev^T @ dGate[:, 2f:3f]]. The second [gemm] leaves the block
    of the first one as it is. *)
Theorem weight_gradient (context : ExecutionContext T) b f :
  valid_backward context b f ->
  exists out,
    Compute context = Ok out /\
    let d_g := matrix (gate_grad_local out) (f * 3) in
    (forall k j, k < f -> j < f * 2 ->
       weight_update_reset (weight_grad_out out) f k j =
         matmul b (transpose (matrix (data (HiddenPrev context)) f))
           d_g k j) /\
    (forall k j, k < f -> j < f ->
       weight_candidate (weight_grad_out out) f k j =
         matmul b (transpose (matrix (data (ResetHiddenPrev context)) f))
           (cols_from d_g (f * 2)) k j).
Proof.
  intros Hv.
  destruct (backward_Compute_post_weights context b f Hv)
    as (out & Hout & _ & _ & HWur & HWc).
  exists out. split; [exact Hout|].
  intros d_g. split; intros k j Hk Hj.
  - now rewrite HWur, Tmul_1_l by assumption.
  - now rewrite HWc, Tmul_1_l by assumption.
Qed.

End WithOne.

End BackwardMore.

(** ** The further properties at the concrete calls *)

Ltac same_row_by_cases :=
  let c := fresh "c" in
  let Hc := fresh "Hc" in
  intros c Hc;
  repeat (destruct c as [|c]; [reflexivity|]); lia.

Lemma forward_overwrites_outputs_witness :
  valid_forward example_forward 2 2 /\
  valid_forward example_forward_dirty 2 2 /\
  same_forward_inputs example_forward example_forward_dirty /\
  GRUUnitKernel.Compute example_forward =
    GRUUnitKernel.Compute example_forward_dirty.
Proof.
  split; [valid_call|]. split; [valid_call|]. split; [repeat split|].
  apply (forward_overwrites_outputs example_forward example_forward_dirty 2 2);
    [valid_call | valid_call | repeat split].
Defined.

Lemma forward_rows_independent_witness :
  valid_forward example_forward 2 2 /\
  valid_forward example_forward_other_rows 3 2 /\
  exists out1 out2,
    GRUUnitKernel.Compute example_forward = Ok out1 /\
    GRUUnitKernel.Compute example_forward_other_rows = Ok out2 /\
    same_row (matrix (GRUUnitKernel.gate_out out1) 6)
             (matrix (GRUUnitKernel.gate_out out2) 6) 1 6 /\
    same_row (matrix (GRUUnitKernel.reset_hidden_prev_out out1) 2)
             (matrix (GRUUnitKernel.reset_hidden_prev_out out2) 2) 1 2 /\
    same_row (matrix (GRUUnitKernel.hidden_out out1) 2)
             (matrix (GRUUnitKernel.hidden_out out2) 2) 1 2.
Proof.
  split; [valid_call|]. split; [valid_call|].
  apply (forward_rows_independent
           example_forward example_forward_other_rows 2 3 2 1);
    try valid_call; try reflexivity; same_row_by_cases.
Defined.

Lemma update_reset_ignore_candidate_weights_witness :
  valid_forward example_forward 2 2 /\
  valid_forward example_forward_other_candidate 2 2 /\
  exists out1 out2,
    GRUUnitKernel.Compute example_forward = Ok out1 /\
    GRUUnitKernel.Compute example_forward_other_candidate = Ok out2 /\
    forall i, i < 2 ->
      same_row (matrix (GRUUnitKernel.gate_out out1) 6)
               (matrix (GRUUnitKernel.gate_out out2) 6) i 4 /\
      same_row (matrix (GRUUnitKernel.reset_hidden_prev_out out1) 2)
               (matrix (GRUUnitKernel.reset_hidden_prev_out out2) 2) i 2.
Proof.
  split; [valid_call|]. split; [valid_call|].
  apply (update_reset_ignore_candidate_weights
           example_forward example_forward_other_candidate 2 2);
    try valid_call; reflexivity.
Defined.

Lemma ActCompute_in_place_witness :
  exists buf',
    GRUUnitKernel.ActCompute relu
      (slice (read (mkMap [-1; 2; -3; 4; -5; 6; 7; -8]%Z 2 4)) (0, 1))
      (slice_of (mkMap [-1; 2; -3; 4; -5; 6; 7; -8]%Z 2 4) (0, 1) (2, 2)) =
      Ok buf' /\
    length buf' = 8 /\
    forall i c, c < 4 ->
      coeff buf' 4 i c =
        if decide (i < 2 /\ 1 <= c < 1 + 2)
        then act relu (coeff [-1; 2; -3; 4; -5; 6; 7; -8]%Z 4 i c)
        else coeff [-1; 2; -3; 4; -5; 6; 7; -8]%Z 4 i c.
Proof.
  apply (ActCompute_in_place relu [-1; 2; -3; 4; -5; 6; 7; -8]%Z 2 4 1 2 2).
  - unfold supported, relu. lia.
  - lia.
  - cbn. lia.
Defined.

Lemma update_gate_gradient_witness :
  valid_backward example_backward 2 2 /\
  exists out,
    GRUUnitGradKernel.Compute example_backward = Ok out /\
    forall i j, i < 2 -> j < 2 ->
      cols_from (matrix (GRUUnitGradKernel.gate_grad_local out) 6) 0 i j =
        act_grad relu
          (gate_u example_backward 2 i j) (gate_u example_backward 2 i j)
          (Tmul (d_hidden example_backward 2 i j)
                (Tsub (h_prev example_backward 2 i j)
                      (gate_c example_backward 2 i j))).
Proof.
  split; [valid_call|].
  apply (update_gate_gradient example_backward 2 2). valid_call.
Defined.

Lemma input_gradient_is_gate_gradient_witness :
  valid_backward example_backward 2 2 /\
  exists out,
    GRUUnitGradKernel.Compute example_backward = Ok out /\
    length (GRUUnitGradKernel.input_grad_out out) = 12 /\
    GRUUnitGradKernel.input_grad_out out =
      GRUUnitGradKernel.gate_grad_local out /\
    forall i c, i < 2 -> c < 6 ->
      matrix (GRUUnitGradKernel.input_grad_out out) 6 i c =
        gate_gradient example_backward 2 i c.
Proof.
  split; [valid_call|].
  apply (@input_gradient_is_gate_gradient Z Z_Scalar Z_Activations
           Z.mul_1_l example_backward 2 2).
  valid_call.
Defined.

Lemma reset_hidden_prev_gradient_witness :
  valid_backward example_backward 2 2 /\
  exists out,
    GRUUnitGradKernel.Compute example_backward = Ok out /\
    forall i j, i < 2 -> j < 2 ->
      matrix (GRUUnitGradKernel.reset_hidden_prev_grad_local out) 2 i j =
        matmul 2
          (cols_from (matrix (GRUUnitGradKernel.gate_grad_local out) 6) 4)
          (transpose
             (weight_candidate [0; 1; 2; 3; 4; 5; 6; 7; 8; 9; 10; 11]%Z 2))
          i j.
Proof.
  split; [valid_call|].
  apply (@reset_hidden_prev_gradient Z Z_Scalar Z_Activations
           Z.mul_1_l example_backward 2 2).
  valid_call.
Defined.

Lemma weight_gradient_witness :
  valid_backward example_backward 2 2 /\
  exists out,
    GRUUnitGradKernel.Compute example_backward = Ok out /\
    (forall k j, k < 2 -> j < 4 ->
       weight_update_reset (GRUUnitGradKernel.weight_grad_out out) 2 k j =
         matmul 2 (transpose (matrix [0; 1; 2; -1]%Z 2))
           (matrix (GRUUnitGradKernel.gate_grad_local out) 6) k j) /\
    (forall k j, k < 2 -> j < 2 ->
       weight_candidate (GRUUnitGradKernel.weight_grad_out out) 2 k j =
         matmul 2 (transpose (matrix [0; 13; 0; -2]%Z 2))
           (cols_from (matrix (GRUUnitGradKernel.gate_grad_local out) 6) 4)
           k j).
Proof.
  split; [valid_call|].
  apply (@weight_gradient Z Z_Scalar Z_Activations
           Z.mul_1_l example_backward 2 2).
  valid_call.
Defined.

Lemma backward_overwrites_outputs_witness :
  valid_backward example_backward 2 2 /\
  valid_backward example_backward_dirty 2 2 /\
  same_backward_inputs example_backward example_backward_dirty /\
  exists out1 out2,
    GRUUnitGradKernel.Compute example_backward = Ok out1 /\
    GRUUnitGradKernel.Compute example_backward_dirty = Ok out2 /\
    gradients out1 = gradients out2.
Proof.
  split; [valid_call|]. split; [valid_call|]. split; [repeat split|].
  apply (backward_overwrites_outputs
           example_backward example_backward_dirty 2 2);
    [valid_call | valid_call | repeat split].
Defined.

Lemma backward_rows_independent_witness :
  valid_backward example_backward 2 2 /\
  valid_backward example_backward_other_rows 3 2 /\
  exists out1 out2,
    GRUUnitGradKernel.Compute example_backward = Ok out1 /\
    GRUUnitGradKernel.Compute example_backward_other_rows = Ok out2 /\
    same_row (matrix (GRUUnitGradKernel.input_grad_out out1) 6)
             (matrix (GRUUnitGradKernel.input_grad_out out2) 6) 1 6 /\
    same_row (matrix (GRUUnitGradKernel.hidden_prev_grad_out out1) 2)
             (matrix (GRUUnitGradKernel.hidden_prev_grad_out out2) 2) 1 2.
Proof.
  split; [valid_call|]. split; [valid_call|].
  apply (backward_rows_independent
           example_backward example_backward_other_rows 2 3 2 1);
    try valid_call; try reflexivity; same_row_by_cases.
Defined.
